(** * Benchmark analyzer: comparison engine and verdict aggregation

    A shallow embedding of [benchmark-suite/analyze_results.py]
    (class [BenchmarkAnalyzer]): the per-metric comparison
    ([compare_metric]), the comparison table
    ([generate_comparison_table]) and the weighted verdict
    ([calculate_overall_winner]), and the methods that consume them: the
    printed table and summary ([print_comparison_table],
    [print_overall_summary]) as the sequence of printed strings, the CSV
    export ([export_to_csv]) as the text written to the file, and the
    charts ([plot_comparison_charts]) as the figures handed to the
    plotting library.  [main], which reads the command line and the
    results file, is not modelled. *)

From Stdlib Require Import QArith Qabs Ascii.
From stdpp Require Import gmap strings list fin_maps pretty.

Local Open Scope string_scope.
Local Open Scope Z_scope.

(** ** Exceptions

    On records of the shape below, with numbers of the interface below,
    the only exception the modelled methods can raise is the one of the
    true division [/] by zero.  A computation either returns a value or
    raises; [x ← m; k] is sequencing, an exception of [m] propagates. *)

Inductive exn : Type := ZeroDivisionError.

Inductive except (A : Type) : Type :=
  | Ok (a : A)
  | Raise (e : exn).
Arguments Ok {A} a.
Arguments Raise {A} e.

#[export] Instance except_ret : MRet except := fun A a => Ok a.
#[export] Instance except_bind : MBind except := fun A B k m =>
  match m with
  | Ok a => k a
  | Raise e => Raise e
  end.

(** ** Numbers

    The measurements are JSON numbers, which Python reads as [int] or
    [float]; the code only uses the operations below on them.  The engine
    is written once over this interface.  [num_of_int] is the value of an
    integer literal or of an integer score, [num_truediv] is Python's [/],
    which raises on a zero divisor, [num_eqb] is [==] and [num_ltb a b] is
    [a < b] (and [b > a]).  The four laws are the only facts about
    numbers the development relies on.

    The interface describes the numbers on which Python's arithmetic
    raises nothing but [ZeroDivisionError]: every [float], the special
    values [inf] and [nan] included, and the integers that convert to a
    [float].  An integer beyond the range of [float] (from [2 ** 1024] on)
    makes [-] and [/] raise [OverflowError]; such inputs are outside the
    interface, so a statement that a method returns is a statement about
    inputs within it, while a statement about what a returned table or
    verdict contains does not depend on it. *)

Class Number (num : Type) : Type := {
  num_of_int : Z -> num;
  num_sub : num -> num -> num;
  num_mul : num -> num -> num;
  num_truediv : num -> num -> except num;
  num_eqb : num -> num -> bool;
  num_ltb : num -> num -> bool;
  num_eqb_zero : num_eqb (num_of_int 0) (num_of_int 0) = true;
  num_eqb_not_ltb : forall a b,
    num_eqb a b = true -> num_ltb a b = false /\ num_ltb b a = false;
  num_truediv_ok : forall a b,
    num_eqb b (num_of_int 0) = false -> exists q, num_truediv a b = Ok q;
  num_of_int_pos : forall z,
    0 < z -> num_eqb (num_of_int z) (num_of_int 0) = false
}.

(** ** Data *)

(** One element of the JSON array in the results file:
    [{'system': ..., 'metrics': {...}}]. *)
Record ResultRecord (num : Type) : Type := {
  system : string;
  metrics : gmap string num
}.
Arguments system {num} r.
Arguments metrics {num} r.

(** The attributes of a [BenchmarkAnalyzer] instance. *)
Record BenchmarkAnalyzer (num : Type) : Type := {
  results : list (ResultRecord num);
  sharedmem : option (ResultRecord num);
  with_mtls : option (ResultRecord num)
}.
Arguments results {num} b.
Arguments sharedmem {num} b.
Arguments with_mtls {num} b.

(** The dict returned by [compare_metric]. *)
Module Comparison.
Record t (num : Type) : Type := {
  metric : string;
  sharedmem : num;
  with_mtls : num;
  diff_percent : num;
  winner : string
}.
Arguments metric {num} t.
Arguments sharedmem {num} t.
Arguments with_mtls {num} t.
Arguments diff_percent {num} t.
Arguments winner {num} t.
End Comparison.

(** The dict returned by [calculate_overall_winner], and its two inner
    dicts. *)
Module Score.
Record t (num : Type) : Type := {
  score : Z;
  percentage : num
}.
Arguments score {num} t.
Arguments percentage {num} t.
End Score.

Module Verdict.
Record t (num : Type) : Type := {
  sharedmem : Score.t num;
  with_mtls : Score.t num;
  winner : string
}.
Arguments sharedmem {num} t.
Arguments with_mtls {num} t.
Arguments winner {num} t.
End Verdict.

(** The [weights] table of [calculate_overall_winner]. *)
Definition weights : gmap string Z :=
  list_to_map
    [ ("votes_per_second", 10);
      ("messages_per_second", 5);
      ("latency_p50", 10);
      ("latency_p95", 8);
      ("latency_p99", 6);
      ("cpu_usage_percent", 7);
      ("memory_usage_mb", 6);
      ("tls_handshake_time_us", 4);
      ("delivery_success_rate", 9) ].

(** The arguments of the thirteen [compare_metric] calls of
    [generate_comparison_table], in the order of the calls: the metric
    name and [higher_is_better]. *)
Definition metric_calls : list (string * bool) :=
  [ ("votes_per_second", true);
    ("messages_per_second", true);
    ("bytes_per_second", true);
    ("latency_p50", false);
    ("latency_p95", false);
    ("latency_p99", false);
    ("latency_mean", false);
    ("cpu_usage_percent", false);
    ("memory_usage_mb", false);
    ("tls_handshake_time_us", false);
    ("cert_validation_time_us", false);
    ("encryption_overhead_percent", false);
    ("delivery_success_rate", true) ].

(** The [categories] table of [print_comparison_table]. *)
Definition categories : list (string * list string) :=
  [ ("Throughput", ["votes_per_second"; "messages_per_second"; "bytes_per_second"]);
    ("Latency", ["latency_p50"; "latency_p95"; "latency_p99"; "latency_mean"]);
    ("Resource Usage", ["cpu_usage_percent"; "memory_usage_mb"]);
    ("Security", ["tls_handshake_time_us"; "cert_validation_time_us";
                  "encryption_overhead_percent"]);
    ("Reliability", ["delivery_success_rate"]) ].

(** ** The analyzer *)

Section Analyzer.
Context {num : Type} `{!Number num}.

Notation "a >? b" := (num_ltb b a) (at level 70, no associativity).
Notation "a <? b" := (num_ltb a b) (at level 70, no associativity).
Notation "a == b" := (num_eqb a b) (at level 70, no associativity).

(** [__init__], after [json.load]: the first record of each of the two
    systems, [None] when there is none. *)
Definition init (loaded : list (ResultRecord num)) : BenchmarkAnalyzer num :=
  {| results := loaded;
     sharedmem := find (fun r => String.eqb (system r) "P2pComm") loaded;
     with_mtls := find (fun r => String.eqb (system r) "MtlsComm") loaded |}.

(** [d.get(key, 0)] *)
Definition get_or_0 (d : gmap string num) (key : string) : num :=
  default (num_of_int 0) (d !! key).

(** A selected record is a dict with at least the key ['system'], hence
    truthy: [not self.sharedmem] holds exactly when it is [None]. *)
Definition compare_metric (self : BenchmarkAnalyzer num)
    (metric_name : string) (higher_is_better : bool)
    : except (option (Comparison.t num)) :=
  match sharedmem self, with_mtls self with
  | Some p2p, Some mtls =>
      let val1 := get_or_0 (metrics p2p) metric_name in
      let val2 := get_or_0 (metrics mtls) metric_name in
      if val1 == num_of_int 0 then Ok None
      else
        q ← num_truediv (num_sub val2 val1) val1;
        let diff_percent := num_mul q (num_of_int 100) in
        let winner :=
          if higher_is_better
          then (if val2 >? val1 then "mtls-comm" else "p2p-comm")
          else (if val2 <? val1 then "mtls-comm" else "p2p-comm") in
        Ok (Some {| Comparison.metric := metric_name;
                    Comparison.sharedmem := val1;
                    Comparison.with_mtls := val2;
                    Comparison.diff_percent := diff_percent;
                    Comparison.winner := winner |})
  | _, _ => Ok None
  end.

Definition generate_comparison_table (self : BenchmarkAnalyzer num)
    : except (list (Comparison.t num)) :=
  (* Throughput metrics (higher is better) *)
  c1 ← compare_metric self "votes_per_second" true;
  c2 ← compare_metric self "messages_per_second" true;
  c3 ← compare_metric self "bytes_per_second" true;
  (* Latency metrics (lower is better) *)
  c4 ← compare_metric self "latency_p50" false;
  c5 ← compare_metric self "latency_p95" false;
  c6 ← compare_metric self "latency_p99" false;
  c7 ← compare_metric self "latency_mean" false;
  (* Resource metrics (lower is better) *)
  c8 ← compare_metric self "cpu_usage_percent" false;
  c9 ← compare_metric self "memory_usage_mb" false;
  (* Security metrics (lower is better for overhead) *)
  c10 ← compare_metric self "tls_handshake_time_us" false;
  c11 ← compare_metric self "cert_validation_time_us" false;
  c12 ← compare_metric self "encryption_overhead_percent" false;
  (* Reliability metrics (higher is better) *)
  c13 ← compare_metric self "delivery_success_rate" true;
  let comparisons := [c1; c2; c3; c4; c5; c6; c7; c8; c9; c10; c11; c12; c13] in
  Ok (omap id comparisons).

(** One iteration of the scoring loop of [calculate_overall_winner], on
    the pair [(sharedmem_score, with_mtls_score)]. *)
Definition score_step (scores : Z * Z) (comp : Comparison.t num) : Z * Z :=
  let metric := Comparison.metric comp in
  let weight := default 1 (weights !! metric) in
  if String.eqb (Comparison.winner comp) "p2p-comm"
  then (scores.1 + weight, scores.2)
  else (scores.1, scores.2 + weight).

(** The scoring loop. *)
Definition score_loop (comparisons : list (Comparison.t num)) : Z * Z :=
  foldl score_step (0, 0) comparisons.

(** [(score / total_score) * 100 if total_score > 0 else 0] *)
Definition percentage_of (score total_score : Z) : except num :=
  if (0 <? total_score)%Z
  then q ← num_truediv (num_of_int score) (num_of_int total_score);
       Ok (num_mul q (num_of_int 100))
  else Ok (num_of_int 0).

(** The body of [calculate_overall_winner] after its first line, as a
    function of the comparison list. *)
Definition overall_winner_of (comparisons : list (Comparison.t num))
    : except (Verdict.t num) :=
  let sharedmem_score := (score_loop comparisons).1 in
  let with_mtls_score := (score_loop comparisons).2 in
  let total_score := sharedmem_score + with_mtls_score in
  p1 ← percentage_of sharedmem_score total_score;
  p2 ← percentage_of with_mtls_score total_score;
  Ok {| Verdict.sharedmem := {| Score.score := sharedmem_score;
                                Score.percentage := p1 |};
        Verdict.with_mtls := {| Score.score := with_mtls_score;
                                Score.percentage := p2 |};
        Verdict.winner := if (sharedmem_score <? with_mtls_score)%Z
                          then "mtls-comm" else "p2p-comm" |}.

Definition calculate_overall_winner (self : BenchmarkAnalyzer num)
    : except (Verdict.t num) :=
  comparisons ← generate_comparison_table self;
  overall_winner_of comparisons.

End Analyzer.

(** ** Text

    What the f-strings of the reporting methods use: the line feed,
    [s * n], the alignment of a field to a width, [str.upper] on ASCII
    letters, and the formatting of numbers.  [str(n)] of an integer is
    [pretty n]. *)

Definition nl : string := String "010"%char "".

(** [s * n] *)
Fixpoint str_repeat (s : string) (n : nat) : string :=
  match n with
  | O => ""
  | S n' => s +:+ str_repeat s n'
  end.

(** [f"{s:<w}"]: left-aligned, filled with spaces up to the width. *)
Definition ljust (w : nat) (s : string) : string :=
  s +:+ str_repeat " " (w - String.length s).

(** [f"{s:>w}"]: right-aligned, filled with spaces up to the width. *)
Definition rjust (w : nat) (s : string) : string :=
  str_repeat " " (w - String.length s) +:+ s.

Definition upper_char (a : ascii) : ascii :=
  let n := nat_of_ascii a in
  if ((97 <=? n) && (n <=? 122))%nat then ascii_of_nat (n - 32) else a.

(** [s.upper()], for text whose letters are ASCII. *)
Fixpoint upper (s : string) : string :=
  match s with
  | EmptyString => EmptyString
  | String a s' => String (upper_char a) (upper s')
  end.

(** Whether a character occurs in a string. *)
Fixpoint has_char (a : ascii) (s : string) : bool :=
  match s with
  | EmptyString => false
  | String b s' => Ascii.eqb b a || has_char a s'
  end.

(** [s.split(a)] for a separator of one character. *)
Fixpoint split_on (a : ascii) (s : string) : list string :=
  match s with
  | EmptyString => [EmptyString]
  | String b s' =>
      if Ascii.eqb b a then EmptyString :: split_on a s'
      else match split_on a s' with
           | [] => [String b EmptyString]
           | field :: fields => String b field :: fields
           end
  end.

(** A text that can stand in a CSV field: no comma and no line feed. *)
Definition plain (s : string) : bool :=
  negb (has_char ","%char s) && negb (has_char "010"%char s).

(** The number formatting the reports use: [abs(x)] and
    [format(x, '.<p>f')], which writes digits, a sign and a point (or
    [inf], [nan]) and so never a comma or a line feed.  As for the
    arithmetic, the interface describes the numbers [format] accepts: it
    raises [OverflowError] on an integer beyond the range of [float]. *)
Class Format (num : Type) : Type := {
  num_abs : num -> num;
  format_f : nat -> num -> string;
  format_f_plain : forall p x, plain (format_f p x) = true
}.

(** ** The reports *)

(** What [_plot_bar_comparison] hands to the plotting library: the tick
    labels, the heights of the two series of bars, the value label on top
    of each bar (first series, then second), the texts and the path the
    figure is saved to. *)
Module Figure.
Record t (num : Type) : Type := {
  title : string;
  xlabel : string;
  ylabel : string;
  labels : list string;
  sharedmem_values : list num;
  with_mtls_values : list num;
  value_labels : list string;
  output_path : string
}.
Arguments title {num} t.
Arguments xlabel {num} t.
Arguments ylabel {num} t.
Arguments labels {num} t.
Arguments sharedmem_values {num} t.
Arguments with_mtls_values {num} t.
Arguments value_labels {num} t.
Arguments output_path {num} t.
End Figure.

Section Reports.
Context {num : Type} `{!Number num} `{!Format num}.

(** The header line of [print_comparison_table]. *)
Definition table_header : string :=
  ljust 35 "Metric" +:+ " | " +:+ rjust 15 "p2p-comm" +:+ " | " +:+
  rjust 15 "mtls-comm" +:+ " | " +:+ rjust 10 "Diff %" +:+ " | " +:+
  ljust 20 "Winner".

(** The line printed for one comparison in [print_comparison_table]. *)
Definition table_row (comp : Comparison.t num) : string :=
  let symbol :=
    if num_ltb (num_of_int 0) (Comparison.diff_percent comp) then "↑" else "↓" in
  let winner_mark :=
    if String.eqb (Comparison.winner comp) "mtls-comm" then "✓" else "" in
  ljust 35 (Comparison.metric comp) +:+ " | " +:+
  rjust 15 (format_f 2 (Comparison.sharedmem comp)) +:+ " | " +:+
  rjust 15 (format_f 2 (Comparison.with_mtls comp)) +:+ " | " +:+
  symbol +:+ rjust 9 (format_f 1 (num_abs (Comparison.diff_percent comp))) +:+
  "% | " +:+ ljust 20 (Comparison.winner comp) +:+ " " +:+ winner_mark.

(** The lines printed for one category: its name, a rule, and a row for
    every comparison, in the order of the table, whose metric is in the
    category. *)
Definition category_lines (comparisons : list (Comparison.t num))
    (category : string * list string) : list string :=
  ([nl +:+ upper category.1; str_repeat "-" 100] ++
   (table_row <$> filter (fun comp => Comparison.metric comp ∈ category.2)
                         comparisons))%list.

(** [print_comparison_table]: the strings printed, one for each call of
    [print]. *)
Definition print_comparison_table (self : BenchmarkAnalyzer num)
    : except (list string) :=
  comparisons ← generate_comparison_table self;
  Ok ([ nl +:+ str_repeat "=" 100;
        "📊 COMPREHENSIVE BENCHMARK COMPARISON";
        str_repeat "=" 100;
        "";
        table_header;
        str_repeat "-" 100 ] ++
      mjoin (category_lines comparisons <$> categories) ++
      [ nl +:+ str_repeat "=" 100 ])%list.

(** [print_overall_summary]: the strings printed. *)
Definition print_overall_summary (self : BenchmarkAnalyzer num)
    : except (list string) :=
  scores ← calculate_overall_winner self;
  Ok [ nl +:+ str_repeat "=" 100;
       "🏆 OVERALL WINNER";
       str_repeat "=" 100;
       "";
       "p2p-comm (libp2p):       " +:+
         rjust 3 (pretty (Score.score (Verdict.sharedmem scores))) +:+ " points (" +:+
         format_f 1 (Score.percentage (Verdict.sharedmem scores)) +:+ "%)";
       "mtls-comm (pure mTLS):    " +:+
         rjust 3 (pretty (Score.score (Verdict.with_mtls scores))) +:+ " points (" +:+
         format_f 1 (Score.percentage (Verdict.with_mtls scores)) +:+ "%)";
       "";
       "🎉 Winner: " +:+ upper (Verdict.winner scores);
       "";
       str_repeat "=" 100 ].

(** [_plot_bar_comparison]: nothing for empty data, else the figure that
    is saved. *)
Definition _plot_bar_comparison (data : list (string * num * num))
    (title xlabel ylabel output_path : string) : option (Figure.t num) :=
  match data with
  | [] => None
  | _ =>
      let labels := (fun d => d.1.1) <$> data in
      let sharedmem_values := (fun d => d.1.2) <$> data in
      let with_mtls_values := (fun d => d.2) <$> data in
      Some {| Figure.title := title;
              Figure.xlabel := xlabel;
              Figure.ylabel := ylabel;
              Figure.labels := labels;
              Figure.sharedmem_values := sharedmem_values;
              Figure.with_mtls_values := with_mtls_values;
              Figure.value_labels :=
                format_f 1 <$> (sharedmem_values ++ with_mtls_values)%list;
              Figure.output_path := output_path |}
  end.

(** The selection [[(c['metric'], c['sharedmem'], c['with_mtls']) for c in
    comparisons if c['metric'] in names]] of [plot_comparison_charts]. *)
Definition chart_data (comparisons : list (Comparison.t num))
    (names : list string) : list (string * num * num) :=
  (fun c => (Comparison.metric c, Comparison.sharedmem c, Comparison.with_mtls c)) <$>
  filter (fun c => Comparison.metric c ∈ names) comparisons.

(** [plot_comparison_charts]: the figures saved, in the order they are
    saved, and the strings printed. *)
Definition plot_comparison_charts (self : BenchmarkAnalyzer num)
    (output_dir : string) : except (list (Figure.t num) * list string) :=
  comparisons ← generate_comparison_table self;
  (* 1. Throughput comparison *)
  let throughput_metrics := ["votes_per_second"; "messages_per_second"] in
  let throughput_data := chart_data comparisons throughput_metrics in
  let fig1 :=
    match throughput_data with
    | [] => None
    | _ => _plot_bar_comparison throughput_data "Throughput Comparison"
             "Metric" "Value" (output_dir +:+ "/throughput_comparison.png")
    end in
  (* 2. Latency comparison *)
  let latency_metrics := ["latency_p50"; "latency_p95"; "latency_p99"] in
  let latency_data := chart_data comparisons latency_metrics in
  let fig2 :=
    match latency_data with
    | [] => None
    | _ => _plot_bar_comparison latency_data "Latency Comparison (μs)"
             "Percentile" "Latency (μs)" (output_dir +:+ "/latency_comparison.png")
    end in
  (* 3. Resource usage comparison *)
  let resource_metrics := ["cpu_usage_percent"; "memory_usage_mb"] in
  let resource_data := chart_data comparisons resource_metrics in
  let fig3 :=
    match resource_data with
    | [] => None
    | _ => _plot_bar_comparison resource_data "Resource Usage Comparison"
             "Metric" "Value" (output_dir +:+ "/resource_comparison.png")
    end in
  Ok (omap id [fig1; fig2; fig3],
      [nl +:+ "📊 Charts saved to: " +:+ output_dir +:+ "/"]).

(** The first line written by [export_to_csv]. *)
Definition csv_header : string := "Metric,p2p-comm,mtls-comm,Difference %,Winner".

(** The line written for one comparison, without its line feed. *)
Definition csv_record (comp : Comparison.t num) : string :=
  Comparison.metric comp +:+ "," +:+
  format_f 2 (Comparison.sharedmem comp) +:+ "," +:+
  format_f 2 (Comparison.with_mtls comp) +:+ "," +:+
  format_f 2 (Comparison.diff_percent comp) +:+ "," +:+
  Comparison.winner comp.

(** [export_to_csv]: the text written to the file and the strings
    printed. *)
Definition export_to_csv (self : BenchmarkAnalyzer num) (output_file : string)
    : except (string * list string) :=
  comparisons ← generate_comparison_table self;
  Ok (foldl (fun f comp => f +:+ (csv_record comp +:+ nl))
            (csv_header +:+ nl) comparisons,
      [nl +:+ "📄 CSV exported to: " +:+ output_file]).

End Reports.

(** ** Exact rational numbers

    The instance used for concrete inputs: integers and decimals as exact
    rationals, [/] raising on a divisor equal to zero.  It has no rounding
    and no special values; it serves for concrete runs only. *)

Definition Q_truediv (a b : Q) : except Q :=
  if Qeq_bool b 0 then Raise ZeroDivisionError else Ok (a / b)%Q.

Definition Q_ltb (a b : Q) : bool := negb (Qle_bool b a).

#[export, refine] Instance Q_Number : Number Q := {|
  num_of_int := inject_Z;
  num_sub := Qminus;
  num_mul := Qmult;
  num_truediv := Q_truediv;
  num_eqb := Qeq_bool;
  num_ltb := Q_ltb
|}.
Proof.
  - reflexivity.
  - intros a b Hab. apply Qeq_bool_iff in Hab. unfold Q_ltb.
    split; apply negb_false_iff, Qle_bool_iff; rewrite Hab; apply Qle_refl.
  - intros a b Hb. unfold Q_truediv. change (inject_Z 0) with 0%Q in Hb.
    rewrite Hb. eauto.
  - intros z Hz. apply not_true_iff_false. intros Heq.
    apply Qeq_bool_iff in Heq. unfold Qeq in Heq. simpl in Heq. lia.
Defined.

(** Formatting of exact rationals, as [format] does it for a
    [fractions.Fraction] (a [float] is first rounded to a double, which
    this instance does not do): the absolute value is rounded to [p]
    decimals, a tie going to the even digit, and written with a minus
    sign for a negative number, the integer part, and a point followed by
    exactly [p] digits when [p] is not zero. *)

Definition round_half_even (q : Q) : Z :=
  let n := Qnum q in
  let d := Z.pos (Qden q) in
  let floor := n / d in
  let twice_rest := 2 * (n mod d) in
  if twice_rest <? d then floor
  else if d <? twice_rest then floor + 1
  else if Z.even floor then floor else floor + 1.

Definition Q_format_f (p : nat) (x : Q) : string :=
  let unit := (10 ^ N.of_nat p)%N in
  let scaled := Z.to_N (round_half_even (Qabs x * inject_Z (Z.of_N unit))) in
  let sign := if Q_ltb x 0 then "-" else "" in
  let decimals := pretty (scaled mod unit)%N in
  sign +:+ pretty (scaled / unit)%N +:+
  match p with
  | O => ""
  | S _ => "." +:+ str_repeat "0" (p - String.length decimals) +:+ decimals
  end.

#[export, refine] Instance Q_Format : Format Q := {|
  num_abs := Qabs;
  format_f := Q_format_f
|}.
Proof.
  intros p x.
  assert (Happ : forall s1 s2,
             plain s1 = true -> plain s2 = true -> plain (s1 +:+ s2) = true).
  { assert (Hhas : forall a s1 s2,
               has_char a (s1 +:+ s2) = has_char a s1 || has_char a s2).
    { intros a s1 s2. induction s1 as [|b s1 IH]; [reflexivity|].
      simpl. by rewrite IH, orb_assoc. }
    unfold plain. intros s1 s2. rewrite !Hhas.
    destruct (has_char "," s1), (has_char "010" s1); try discriminate.
    simpl. auto. }
  assert (Hzeros : forall n, plain (str_repeat "0" n) = true).
  { induction n as [|n IH]; [reflexivity|]. simpl. by apply (Happ "0"). }
  assert (Hgo : forall n s, plain s = true -> plain (pretty_N_go n s) = true).
  { intros n. induction (N.lt_wf_0 n) as [n _ IH]. intros s Hs.
    destruct (decide (n = 0)%N) as [->|Hn]; [by rewrite pretty_N_go_0|].
    rewrite pretty_N_go_step by lia. apply IH; [apply N.div_lt; lia|].
    apply (Happ (String (pretty_N_char (n `mod` 10)) "")); [|exact Hs].
    unfold pretty_N_char. by repeat case_match. }
  assert (Hpretty : forall n : N, plain (pretty n) = true).
  { intros n. unfold pretty, pretty_N. case_decide; [reflexivity|]. by apply Hgo. }
  unfold Q_format_f. apply Happ; [by destruct (Q_ltb x 0)|].
  apply Happ; [apply Hpretty|]. destruct p as [|p]; [reflexivity|].
  apply (Happ "."); [reflexivity|]. apply Happ; [apply Hzeros | apply Hpretty].
Defined.

(** ** Numbers with infinities and not-a-number

    A second instance: exact finite values together with the special
    values of a [float], which [json.load] yields for a literal such as
    [1e400] or [Infinity].  The special values follow the arithmetic of
    [float]: [inf - inf] and [inf / inf] are [nan], [nan] is equal to
    nothing and less than nothing, and a division by zero raises whatever
    the dividend. *)

Inductive xnum : Type :=
  | Fin (q : Q)
  | PosInf
  | NegInf
  | NaN.

Definition x_sub (a b : xnum) : xnum :=
  match a, b with
  | NaN, _ | _, NaN => NaN
  | Fin p, Fin q => Fin (p - q)
  | Fin _, PosInf => NegInf
  | Fin _, NegInf => PosInf
  | PosInf, PosInf => NaN
  | PosInf, _ => PosInf
  | NegInf, NegInf => NaN
  | NegInf, _ => NegInf
  end.

(** An infinity times a finite factor. *)
Definition x_scale (positive : bool) (q : Q) : xnum :=
  if Qeq_bool q 0 then NaN
  else if Bool.eqb positive (Q_ltb 0 q) then PosInf else NegInf.

Definition x_mul (a b : xnum) : xnum :=
  match a, b with
  | NaN, _ | _, NaN => NaN
  | Fin p, Fin q => Fin (p * q)
  | Fin p, PosInf | PosInf, Fin p => x_scale true p
  | Fin p, NegInf | NegInf, Fin p => x_scale false p
  | PosInf, PosInf | NegInf, NegInf => PosInf
  | PosInf, NegInf | NegInf, PosInf => NegInf
  end.

Definition x_truediv (a b : xnum) : except xnum :=
  match b with
  | Fin q =>
      if Qeq_bool q 0 then Raise ZeroDivisionError
      else Ok match a with
              | Fin p => Fin (p / q)
              | PosInf => x_scale true q
              | NegInf => x_scale false q
              | NaN => NaN
              end
  | PosInf | NegInf =>
      Ok match a with
         | Fin _ => Fin 0
         | _ => NaN
         end
  | NaN => Ok NaN
  end.

Definition x_eqb (a b : xnum) : bool :=
  match a, b with
  | Fin p, Fin q => Qeq_bool p q
  | PosInf, PosInf | NegInf, NegInf => true
  | _, _ => false
  end.

Definition x_ltb (a b : xnum) : bool :=
  match a, b with
  | Fin p, Fin q => Q_ltb p q
  | NegInf, Fin _ | NegInf, PosInf | Fin _, PosInf => true
  | _, _ => false
  end.

#[export, refine] Instance X_Number : Number xnum | 100 := {|
  num_of_int := fun z => Fin (inject_Z z);
  num_sub := x_sub;
  num_mul := x_mul;
  num_truediv := x_truediv;
  num_eqb := x_eqb;
  num_ltb := x_ltb
|}.
Proof.
  - reflexivity.
  - intros [p| | |] [q| | |] Hab; try discriminate; try (split; reflexivity).
    exact (num_eqb_not_ltb (num := Q) p q Hab).
  - intros a [q| | |] Hb; simpl; eauto.
    change (Qeq_bool q 0 = false) in Hb. rewrite Hb. eauto.
  - intros z Hz. exact (num_of_int_pos (num := Q) z Hz).
Defined.

(** ** Derived notions used in the statements *)

(** A record as it is written in the results file: the label and the
    entries of the metrics object, in the order of the file.  Of a key
    written more than once, [json.load] keeps the last value. *)
Definition record {num : Type} (s : string) (items : list (string * num))
    : ResultRecord num :=
  {| system := s; metrics := list_to_map (reverse items) |}.

(** The polarity of a metric: the [higher_is_better] argument of its call
    in [generate_comparison_table]. *)
Definition polarity : gmap string bool := list_to_map metric_calls.

(** The metric names in the order of the calls. *)
Definition enumeration : list string := metric_calls.*1.

Section Conditions.
Context {num : Type} `{!Number num}.

(** The condition under which [compare_metric] gets past its two early
    returns: both systems were found and the first value is not [== 0]. *)
Definition compared (self : BenchmarkAnalyzer num) (metric_name : string) : bool :=
  match sharedmem self, with_mtls self with
  | Some p2p, Some _ =>
      negb (num_eqb (get_or_0 (metrics p2p) metric_name) (num_of_int 0))
  | _, _ => false
  end.
End Conditions.

(** The three groups of [plot_comparison_charts], in the order they are
    plotted: the metric names and the file name of the chart. *)
Definition chart_groups : list (list string * string) :=
  [ (["votes_per_second"; "messages_per_second"], "/throughput_comparison.png");
    (["latency_p50"; "latency_p95"; "latency_p99"], "/latency_comparison.png");
    (["cpu_usage_percent"; "memory_usage_mb"], "/resource_comparison.png") ].

Section Charts.
Context {num : Type} `{!Format num}.

(** What a group of metric names has as its chart: none when no
    comparison of the table is for one of the names, else a figure saved
    at the path, with a tick, a pair of bars and a pair of value labels
    for each such comparison, in the order of the table. *)
Definition charted_as (comparisons : list (Comparison.t num))
    (names : list string) (path : string) (chart : option (Figure.t num)) : Prop :=
  let group := filter (fun c => Comparison.metric c ∈ names) comparisons in
  match chart with
  | None => group = []
  | Some fig =>
      group <> [] /\
      Figure.output_path fig = path /\
      Figure.labels fig = Comparison.metric <$> group /\
      Figure.sharedmem_values fig = Comparison.sharedmem <$> group /\
      Figure.with_mtls_values fig = Comparison.with_mtls <$> group /\
      Figure.value_labels fig =
        (format_f 1 <$> ((Comparison.sharedmem <$> group) ++
                         (Comparison.with_mtls <$> group)))%list
  end.
End Charts.

(** ** Concrete inputs *)

(** Only a metric without entry in [weights], on both sides. *)
Definition unweighted_only : list (ResultRecord Q) :=
  [ record "P2pComm" [("bytes_per_second", 100%Q)];
    record "MtlsComm" [("bytes_per_second", 50%Q)] ].

(** The second system does not report the metric. *)
Definition second_lacks_metric : list (ResultRecord Q) :=
  [ record "P2pComm" [("latency_p50", 100%Q)];
    record "MtlsComm" [] ].

(** Four metrics on both sides, one of them zero for the first system and
    one of them a tie. *)
Definition scenario_p2p : ResultRecord Q :=
  record "P2pComm" [("latency_p50", 100%Q); ("votes_per_second", 0%Q);
                    ("cpu_usage_percent", 40%Q); ("delivery_success_rate", 99%Q)].

Definition scenario_mtls : ResultRecord Q :=
  record "MtlsComm" [("delivery_success_rate", 99%Q); ("latency_p50", 80%Q);
                     ("votes_per_second", 500%Q); ("cpu_usage_percent", 55%Q)].

Definition scenario : list (ResultRecord Q) := [scenario_p2p; scenario_mtls].

(** A comparison for a metric without entry in [weights]. *)
Definition bytes_entry : Comparison.t Q :=
  {| Comparison.metric := "bytes_per_second";
     Comparison.sharedmem := 100%Q;
     Comparison.with_mtls := 50%Q;
     Comparison.diff_percent := (-50)%Q;
     Comparison.winner := "p2p-comm" |}.

(** Only the first system is in the results. *)
Definition only_first : list (ResultRecord Q) :=
  [ record "P2pComm" [("latency_p50", 100%Q)];
    record "Other" [("latency_p50", 80%Q)] ].



(** [scenario] among other records: one of another system in front, and
    a second record of the first system behind the first one. *)
Definition crowded : list (ResultRecord Q) :=
  [ record "Other" [("latency_p50", 1%Q)];
    scenario_p2p;
    record "P2pComm" [("latency_p50", 7%Q)];
    scenario_mtls ].

(** [scenario] with a key on each side that no call asks for. *)
Definition scenario_extra_keys : list (ResultRecord Q) :=
  [ {| system := "P2pComm";
       metrics := <["queue_depth" := 3%Q]> (metrics scenario_p2p) |};
    {| system := "MtlsComm";
       metrics := <["queue_depth" := 9%Q]> (metrics scenario_mtls) |} ].

(** A comparison won by the second system. *)
Definition latency_entry : Comparison.t Q :=
  {| Comparison.metric := "latency_p50";
     Comparison.sharedmem := 100%Q;
     Comparison.with_mtls := 80%Q;
     Comparison.diff_percent := (-20)%Q;
     Comparison.winner := "mtls-comm" |}.

(** ** Properties of the engine *)

Section Theory.
Context {num : Type} `{!Number num}.
Implicit Types (self : BenchmarkAnalyzer num) (c : Comparison.t num).
Implicit Types (m : string) (h : bool).

Lemma bind_Ok {A B} (a : A) (k : A -> except B) : (x ← Ok a; k x) = k a.
Proof. reflexivity. Qed.

(** [compare_metric] never raises: the division is guarded. *)
Lemma compare_metric_ok self m h : exists o, compare_metric self m h = Ok o.
Proof.
  unfold compare_metric.
  destruct (sharedmem self) as [p2p|], (with_mtls self) as [mtls|]; eauto.
  destruct (num_eqb _ _) eqn:Hz; eauto.
  destruct (num_truediv_ok
              (num_sub (get_or_0 (metrics mtls) m) (get_or_0 (metrics p2p) m))
              _ Hz) as [q ->].
  rewrite bind_Ok. eauto.
Qed.

(** What a returned dict is made of. *)
Lemma compare_metric_Some self m h c :
  compare_metric self m h = Ok (Some c) ->
  exists p2p mtls q,
    sharedmem self = Some p2p /\ with_mtls self = Some mtls /\
    num_eqb (get_or_0 (metrics p2p) m) (num_of_int 0) = false /\
    num_truediv (num_sub (get_or_0 (metrics mtls) m) (get_or_0 (metrics p2p) m))
                (get_or_0 (metrics p2p) m) = Ok q /\
    Comparison.metric c = m /\
    Comparison.sharedmem c = get_or_0 (metrics p2p) m /\
    Comparison.with_mtls c = get_or_0 (metrics mtls) m /\
    Comparison.diff_percent c = num_mul q (num_of_int 100) /\
    Comparison.winner c =
      if h
      then (if num_ltb (get_or_0 (metrics p2p) m) (get_or_0 (metrics mtls) m)
            then "mtls-comm" else "p2p-comm")
      else (if num_ltb (get_or_0 (metrics mtls) m) (get_or_0 (metrics p2p) m)
            then "mtls-comm" else "p2p-comm").
Proof.
  unfold compare_metric.
  destruct (sharedmem self) as [p2p|], (with_mtls self) as [mtls|];
    try discriminate.
  destruct (num_eqb _ _) eqn:Hz; try discriminate.
  destruct (num_truediv _ _) as [q|e] eqn:Hq; try discriminate.
  rewrite bind_Ok. intros [= <-]. exists p2p, mtls, q. simpl.
  repeat split; auto.
Qed.

(** [compare_metric] returns a dict exactly under [compared]. *)
Lemma compare_metric_compared self m h o :
  compare_metric self m h = Ok o ->
  (compared self m = false /\ o = None) \/
  (compared self m = true /\ exists c, o = Some c /\ Comparison.metric c = m).
Proof.
  unfold compare_metric, compared.
  destruct (sharedmem self) as [p2p|], (with_mtls self) as [mtls|];
    try (intros [= <-]; left; split; reflexivity).
  destruct (num_eqb _ _) eqn:Hz; simpl.
  - intros [= <-]. left; split; reflexivity.
  - destruct (num_truediv _ _) as [q|e]; try discriminate.
    rewrite bind_Ok. intros [= <-]. right. split; [reflexivity|]. eauto.
Qed.

(** The table is the list of the dicts returned by the thirteen calls,
    in the order of the calls. *)
Lemma generate_comparison_table_calls self :
  exists os,
    Forall2 (fun call o => compare_metric self call.1 call.2 = Ok o) metric_calls os /\
    generate_comparison_table self = Ok (omap id os).
Proof.
  unfold generate_comparison_table, metric_calls.
  repeat match goal with
  | |- context [mbind _ (compare_metric self ?m ?h)] =>
      let o := fresh "o" in
      let Ho := fresh "Ho" in
      destruct (compare_metric_ok self m h) as [o Ho];
      rewrite Ho, bind_Ok
  end.
  eexists. split; [|reflexivity].
  repeat (constructor; [assumption|]). constructor.
Qed.

(** The table is always returned. *)
Lemma generate_comparison_table_ok self :
  exists cs, generate_comparison_table self = Ok cs.
Proof. destruct (generate_comparison_table_calls self) as (os & _ & ->). eauto. Qed.

(** Every entry of the table was returned by one of the calls. *)
Lemma table_elem self cs c :
  generate_comparison_table self = Ok cs -> c ∈ cs ->
  exists m h, (m, h) ∈ metric_calls /\ compare_metric self m h = Ok (Some c).
Proof.
  destruct (generate_comparison_table_calls self) as (os & Hos & ->).
  intros [= <-] Hc.
  apply list_elem_of_omap in Hc as (o & Ho & Hoc). simpl in Hoc. subst o.
  apply list_elem_of_lookup in Ho as [i Hi].
  destruct (Forall2_lookup_r _ _ _ _ _ Hos Hi) as ([m h] & Hcall & Hcm).
  exists m, h. split; [|exact Hcm].
  apply list_elem_of_lookup. eauto.
Qed.


(** The names of the calls are pairwise different, so [polarity] holds
    exactly the calls. *)
Lemma polarity_calls m h : polarity !! m = Some h <-> (m, h) ∈ metric_calls.
Proof.
  unfold polarity. symmetry. apply elem_of_list_to_map.
  apply (bool_decide_unpack _). vm_compute. exact I.
Qed.

(** A table entry for a metric was returned by the call for that metric. *)
Lemma table_elem_metric self cs c :
  generate_comparison_table self = Ok cs -> c ∈ cs ->
  exists h, polarity !! Comparison.metric c = Some h /\
            compare_metric self (Comparison.metric c) h = Ok (Some c).
Proof.
  intros Hcs Hc. destruct (table_elem _ _ _ Hcs Hc) as (m & h & Hcall & Hcm).
  destruct (compare_metric_Some _ _ _ _ Hcm) as (_ & _ & _ & _ & _ & _ & _ & Hm & _).
  subst m. exists h. split; [by apply polarity_calls | exact Hcm].
Qed.

Lemma find_label_None (loaded : list (ResultRecord num)) (label : string) :
  Forall (fun r => system r <> label) loaded ->
  find (fun r => String.eqb (system r) label) loaded = None.
Proof.
  induction 1 as [|r rs Hr _ IH]; [reflexivity|]. simpl.
  destruct (String.eqb_spec (system r) label); [contradiction | exact IH].
Qed.

Lemma compare_metric_missing self m h :
  sharedmem self = None \/ with_mtls self = None ->
  compare_metric self m h = Ok None.
Proof.
  unfold compare_metric. intros [-> | ->]; [reflexivity|].
  destruct (sharedmem self); reflexivity.
Qed.

(** C7. When no record of the results carries the label of the first
    system, or none carries the label of the second, the comparison
    table is returned (no exception) and is empty. *)
Theorem missing_subject_empty (loaded : list (ResultRecord num)) :
  Forall (fun r => system r <> "P2pComm") loaded \/
  Forall (fun r => system r <> "MtlsComm") loaded ->
  generate_comparison_table (init loaded) = Ok [].
Proof.
  intros Hmiss.
  assert (Hnone : sharedmem (init loaded) = None \/ with_mtls (init loaded) = None).
  { destruct Hmiss as [Hm | Hm]; [left | right]; simpl;
      apply find_label_None, Hm. }
  unfold generate_comparison_table.
  rewrite !(compare_metric_missing _ _ _ Hnone). reflexivity.
Qed.

(** C6. A metric whose value for the first system is [0], or which the
    first system does not report (read as [0]), has no entry in the
    comparison table, which is returned without exception. *)
Theorem zero_first_value_excluded (loaded : list (ResultRecord num)) p2p m :
  sharedmem (init loaded) = Some p2p ->
  metrics p2p !! m = None \/
  (exists v, metrics p2p !! m = Some v /\ num_eqb v (num_of_int 0) = true) ->
  exists cs, generate_comparison_table (init loaded) = Ok cs /\
             forall c, c ∈ cs -> Comparison.metric c <> m.
Proof.
  intros Hp2p Hzero.
  assert (Hz : num_eqb (get_or_0 (metrics p2p) m) (num_of_int 0) = true).
  { unfold get_or_0. destruct Hzero as [-> | (v & -> & Hv)]; simpl;
      [apply num_eqb_zero | exact Hv]. }
  destruct (generate_comparison_table_ok (init loaded)) as [cs Hcs].
  exists cs. split; [exact Hcs|]. intros c Hc Hm.
  destruct (table_elem_metric _ _ _ Hcs Hc) as (h & _ & Hcm).
  destruct (compare_metric_Some _ _ _ _ Hcm) as (p & _ & _ & Hp & _ & Hnz & _).
  rewrite Hp2p in Hp. injection Hp as <-. rewrite Hm in Hnz. congruence.
Qed.

(** C3. The comparison table is returned, and every entry of it is for
    a metric with a polarity and obeys the winner rule: for a
    higher-is-better metric with the second value greater than the first,
    and for a lower-is-better metric with the second value less than the
    first, the winner is the label of the second system, "mtls-comm"; when
    the two values are equal the winner is the label of the first system,
    "p2p-comm". *)
Theorem winner_rule (loaded : list (ResultRecord num)) :
  exists cs, generate_comparison_table (init loaded) = Ok cs /\
    forall c, c ∈ cs ->
      is_Some (polarity !! Comparison.metric c) /\
      (polarity !! Comparison.metric c = Some true ->
       num_ltb (Comparison.sharedmem c) (Comparison.with_mtls c) = true ->
       Comparison.winner c = "mtls-comm") /\
      (polarity !! Comparison.metric c = Some false ->
       num_ltb (Comparison.with_mtls c) (Comparison.sharedmem c) = true ->
       Comparison.winner c = "mtls-comm") /\
      (num_eqb (Comparison.sharedmem c) (Comparison.with_mtls c) = true ->
       Comparison.winner c = "p2p-comm").
Proof.
  destruct (generate_comparison_table_ok (init loaded)) as [cs Hcs].
  exists cs. split; [exact Hcs|]. intros c Hc.
  destruct (table_elem_metric _ _ _ Hcs Hc) as (h & Hpol & Hcm).
  destruct (compare_metric_Some _ _ _ _ Hcm)
    as (p2p & mtls & q & _ & _ & _ & _ & _ & -> & -> & _ & ->).
  rewrite Hpol. split; [eauto|]. repeat split.
  - intros [= ->] ->. reflexivity.
  - intros [= ->] ->. reflexivity.
  - intros Heq. apply num_eqb_not_ltb in Heq as [-> ->]. by destruct h.
Qed.

(** C5. The comparison table is returned, and in every entry the stored
    percent difference is the one recomputed from the two stored values:
    the division [(with_mtls - sharedmem) / sharedmem] succeeds and
    [diff_percent] is its result times [100]. *)
Theorem diff_percent_recomputed (loaded : list (ResultRecord num)) :
  exists cs, generate_comparison_table (init loaded) = Ok cs /\
    forall c, c ∈ cs ->
      exists q,
        num_truediv (num_sub (Comparison.with_mtls c) (Comparison.sharedmem c))
                    (Comparison.sharedmem c) = Ok q /\
        Comparison.diff_percent c = num_mul q (num_of_int 100).
Proof.
  destruct (generate_comparison_table_ok (init loaded)) as [cs Hcs].
  exists cs. split; [exact Hcs|]. intros c Hc.
  destruct (table_elem_metric _ _ _ Hcs Hc) as (h & _ & Hcm).
  destruct (compare_metric_Some _ _ _ _ Hcm)
    as (p2p & mtls & q & _ & _ & _ & Hq & _ & -> & -> & -> & _).
  exists q. split; [exact Hq | reflexivity].
Qed.

(** C10. The comparison table is returned, and the winner of every entry
    is one of the two fixed strings "p2p-comm" and "mtls-comm", whatever
    the records of the results contain. *)
Theorem winner_is_fixed_label (loaded : list (ResultRecord num)) :
  exists cs, generate_comparison_table (init loaded) = Ok cs /\
    forall c, c ∈ cs ->
      Comparison.winner c = "p2p-comm" \/ Comparison.winner c = "mtls-comm".
Proof.
  destruct (generate_comparison_table_ok (init loaded)) as [cs Hcs].
  exists cs. split; [exact Hcs|]. intros c Hc.
  destruct (table_elem_metric _ _ _ Hcs Hc) as (h & _ & Hcm).
  destruct (compare_metric_Some _ _ _ _ Hcm)
    as (p2p & mtls & q & _ & _ & _ & _ & _ & _ & _ & _ & ->).
  destruct h; destruct (num_ltb _ _); auto.
Qed.

(** The metrics of the table are the compared ones among the names of
    the calls, in the order of the calls. *)
Lemma table_metrics self :
  exists cs, generate_comparison_table self = Ok cs /\
    Comparison.metric <$> cs = filter (fun m => compared self m = true) enumeration.
Proof.
  destruct (generate_comparison_table_calls self) as (os & Hos & ->).
  eexists. split; [reflexivity|]. unfold enumeration.
  induction Hos as [|[m h] o calls os Hcm _ IH]; [reflexivity|].
  simpl in Hcm. change (((m, h) :: calls).*1) with (m :: calls.*1).
  destruct (compare_metric_compared _ _ _ _ Hcm) as [[Hc ->] | [Hc (c & -> & Hm)]].
  - change (omap id (None :: os)) with (omap id os).
    rewrite filter_cons_False by congruence. exact IH.
  - change (omap id (Some c :: os)) with (c :: omap id os).
    rewrite fmap_cons, filter_cons_True by exact Hc. by rewrite Hm, IH.
Qed.

(** C9. The names of the calls are the metrics of the five categories
    Throughput, Latency, Resource Usage, Security, Reliability, in this
    order and in the order of declaration inside a category.  The
    comparison table is returned and its metrics are, in this very order,
    those names for which both systems were found and the first value is
    not zero.  Writing the entries of the metrics objects of the records
    in another order gives the same table. *)
Theorem table_order (loaded : list (ResultRecord num)) :
  categories.*1 =
    ["Throughput"; "Latency"; "Resource Usage"; "Security"; "Reliability"] /\
  enumeration = mjoin categories.*2 /\
  (exists cs, generate_comparison_table (init loaded) = Ok cs /\
     Comparison.metric <$> cs =
       filter (fun m => compared (init loaded) m = true) enumeration) /\
  (forall written written' : list (string * list (string * num)),
     Forall2 (fun x y => x.1 = y.1 /\ NoDup x.2.*1 /\ x.2 ≡ₚ y.2) written written' ->
     generate_comparison_table (init ((fun x => record x.1 x.2) <$> written)) =
     generate_comparison_table (init ((fun x => record x.1 x.2) <$> written'))).
Proof.
  split; [reflexivity|]. split; [reflexivity|].
  split; [apply table_metrics|].
  intros written written' Hw. f_equal. f_equal.
  induction Hw as [|[s items] [s' items'] ws ws' (Hs & Hnd & Hperm) _ IH];
    [reflexivity|].
  simpl in Hs, Hnd, Hperm. subst s'. rewrite !fmap_cons, IH. simpl.
  f_equal. unfold record. f_equal. apply list_to_map_proper.
  - by rewrite fmap_reverse, reverse_Permutation.
  - by rewrite !reverse_Permutation.
Qed.

(** C2, as the code has it.  An entry of the comparison table for a
    metric is there only when both systems were found and the first system
    reports the metric with a value that is not zero; the second system
    need not report it: the entry carries the value of the second system,
    which is [0] when its mapping lacks the metric. *)
Theorem comparison_only_when (loaded : list (ResultRecord num)) m cs c :
  generate_comparison_table (init loaded) = Ok cs ->
  c ∈ cs -> Comparison.metric c = m ->
  exists p2p mtls v,
    sharedmem (init loaded) = Some p2p /\ with_mtls (init loaded) = Some mtls /\
    metrics p2p !! m = Some v /\ num_eqb v (num_of_int 0) = false /\
    Comparison.sharedmem c = v /\
    Comparison.with_mtls c = get_or_0 (metrics mtls) m /\
    (metrics mtls !! m = None -> Comparison.with_mtls c = num_of_int 0).
Proof.
  intros Hcs Hc Hm.
  destruct (table_elem_metric _ _ _ Hcs Hc) as (h & _ & Hcm).
  destruct (compare_metric_Some _ _ _ _ Hcm)
    as (p2p & mtls & _ & Hp & Hq & Hnz & _ & _ & Hv1 & Hv2 & _).
  rewrite Hm in *. unfold get_or_0 in Hnz, Hv1.
  destruct (metrics p2p !! m) as [v|] eqn:Hv; simpl in Hnz, Hv1.
  2:{ rewrite num_eqb_zero in Hnz. discriminate. }
  exists p2p, mtls, v. repeat split; try assumption.
  intros Hnone. rewrite Hv2. unfold get_or_0. by rewrite Hnone.
Qed.

(** *** The verdict *)

Lemma score_step_acc (acc : Z * Z) c :
  score_step acc c =
    (acc.1 + (score_step (0, 0) c).1, acc.2 + (score_step (0, 0) c).2).
Proof.
  unfold score_step. destruct acc as [a b].
  destruct (String.eqb _ _); simpl; f_equal; lia.
Qed.

Lemma foldl_score_step (cs : list (Comparison.t num)) (acc : Z * Z) :
  foldl score_step acc cs =
    (acc.1 + (score_loop cs).1, acc.2 + (score_loop cs).2).
Proof.
  unfold score_loop. revert acc.
  induction cs as [|c cs IH]; intros [a b]; simpl.
  - f_equal; lia.
  - rewrite (IH (score_step (a, b) c)), (IH (score_step (0, 0) c)).
    rewrite (score_step_acc (a, b)). simpl. f_equal; lia.
Qed.

Lemma score_loop_app (cs1 cs2 : list (Comparison.t num)) :
  score_loop (cs1 ++ cs2) =
    ((score_loop cs1).1 + (score_loop cs2).1,
     (score_loop cs1).2 + (score_loop cs2).2).
Proof.
  unfold score_loop at 1. rewrite foldl_app.
  fold (score_loop cs1). apply foldl_score_step.
Qed.

Lemma score_loop_cons c (cs : list (Comparison.t num)) :
  score_loop (c :: cs) =
    ((score_step (0, 0) c).1 + (score_loop cs).1,
     (score_step (0, 0) c).2 + (score_loop cs).2).
Proof. unfold score_loop at 1. simpl. apply foldl_score_step. Qed.

(** The percentages never raise: the division is guarded. *)
Lemma percentage_of_ok (score total_score : Z) :
  exists p, percentage_of score total_score = Ok p.
Proof.
  unfold percentage_of. destruct (Z.ltb_spec 0 total_score) as [Hpos|_]; eauto.
  destruct (num_truediv_ok (num_of_int score) _ (num_of_int_pos _ Hpos)) as [q ->].
  rewrite bind_Ok. eauto.
Qed.

(** The verdict is always returned, with the scores of the loop. *)
Lemma overall_winner_of_ok (cs : list (Comparison.t num)) :
  exists v, overall_winner_of cs = Ok v /\
    Score.score (Verdict.sharedmem v) = (score_loop cs).1 /\
    Score.score (Verdict.with_mtls v) = (score_loop cs).2 /\
    Verdict.winner v =
      if (score_loop cs).1 <? (score_loop cs).2 then "mtls-comm" else "p2p-comm".
Proof.
  unfold overall_winner_of.
  destruct (percentage_of_ok (score_loop cs).1 ((score_loop cs).1 + (score_loop cs).2))
    as [p1 ->].
  destruct (percentage_of_ok (score_loop cs).2 ((score_loop cs).1 + (score_loop cs).2))
    as [p2 ->].
  rewrite !bind_Ok. eexists. split; [reflexivity|]. simpl. auto.
Qed.

(** C1, as the code has it.  A comparison whose metric has no entry in
    the weight table counts with the default weight [1]: wherever it
    stands in the list, the verdict with it gives its winner one point
    more than the verdict without it (the first system when the winner is
    "p2p-comm", the second system otherwise) and leaves the other score
    unchanged.  Both verdicts are returned. *)
Theorem unweighted_adds_one (cs1 cs2 : list (Comparison.t num)) c :
  weights !! Comparison.metric c = None ->
  exists v v',
    overall_winner_of (cs1 ++ cs2) = Ok v /\
    overall_winner_of (cs1 ++ c :: cs2) = Ok v' /\
    if String.eqb (Comparison.winner c) "p2p-comm"
    then Score.score (Verdict.sharedmem v') = Score.score (Verdict.sharedmem v) + 1 /\
         Score.score (Verdict.with_mtls v') = Score.score (Verdict.with_mtls v)
    else Score.score (Verdict.sharedmem v') = Score.score (Verdict.sharedmem v) /\
         Score.score (Verdict.with_mtls v') = Score.score (Verdict.with_mtls v) + 1.
Proof.
  intros Hw.
  destruct (overall_winner_of_ok (cs1 ++ cs2)) as (v & Hv & Hv1 & Hv2 & _).
  destruct (overall_winner_of_ok (cs1 ++ c :: cs2)) as (v' & Hv' & Hv1' & Hv2' & _).
  exists v, v'. split; [exact Hv|]. split; [exact Hv'|].
  rewrite Hv1, Hv2, Hv1', Hv2', !score_loop_app, score_loop_cons.
  unfold score_step. rewrite Hw.
  destruct (String.eqb _ _); simpl; lia.
Qed.

(** C4. For every comparison list the verdict is returned, and its
    winner is "mtls-comm", the label of the second system, exactly when
    the score of the second system is strictly greater than the score of
    the first; in every other case it is "p2p-comm", the label of the
    first system.  This holds in particular for the empty list, whose
    scores are both [0], and for the verdict [calculate_overall_winner]
    computes from the comparison table of the results. *)
Theorem overall_winner_rule (cs : list (Comparison.t num))
    (loaded : list (ResultRecord num)) :
  let rule (v : Verdict.t num) :=
    (Verdict.winner v = "mtls-comm" <->
     Score.score (Verdict.sharedmem v) < Score.score (Verdict.with_mtls v)) /\
    (~ Score.score (Verdict.sharedmem v) < Score.score (Verdict.with_mtls v) ->
     Verdict.winner v = "p2p-comm") in
  (exists v, overall_winner_of cs = Ok v /\ rule v) /\
  (exists v, overall_winner_of [] = Ok v /\
             Score.score (Verdict.sharedmem v) = 0 /\
             Score.score (Verdict.with_mtls v) = 0 /\
             Verdict.winner v = "p2p-comm") /\
  (exists table v, generate_comparison_table (init loaded) = Ok table /\
                   overall_winner_of table = Ok v /\
                   calculate_overall_winner (init loaded) = Ok v /\ rule v).
Proof.
  intros rule.
  assert (Hrule : forall l v,
             overall_winner_of l = Ok v ->
             Score.score (Verdict.sharedmem v) = (score_loop l).1 ->
             Score.score (Verdict.with_mtls v) = (score_loop l).2 ->
             Verdict.winner v =
               (if (score_loop l).1 <? (score_loop l).2
                then "mtls-comm" else "p2p-comm") ->
             rule v).
  { unfold rule. intros l v _ -> -> ->.
    destruct (Z.ltb_spec (score_loop l).1 (score_loop l).2) as [Hlt|Hge].
    - split; [tauto | intros Hn; contradiction].
    - split; [split; [discriminate | lia] | reflexivity]. }
  split; [|split].
  - destruct (overall_winner_of_ok cs) as (v & Hv & H1 & H2 & Hw). eauto.
  - destruct (overall_winner_of_ok []) as (v & Hv & H1 & H2 & Hw).
    exists v. rewrite H1, H2, Hw. auto.
  - destruct (generate_comparison_table_ok (init loaded)) as [table Htable].
    destruct (overall_winner_of_ok table) as (v & Hv & H1 & H2 & Hw).
    exists table, v. unfold calculate_overall_winner.
    rewrite Htable, bind_Ok. eauto.
Qed.

End Theory.

(** ** Missing values, on the numbers with infinities *)



(** ** Concrete runs *)

(** The table of [scenario]: the zero metric is left out, the order is
    the order of the calls, the tie goes to the first system. *)
Example scenario_table :
  exists cs, generate_comparison_table (init scenario) = Ok cs /\
    (fun c => (Comparison.metric c, Comparison.winner c)) <$> cs =
      [ ("latency_p50", "mtls-comm"); ("cpu_usage_percent", "p2p-comm");
        ("delivery_success_rate", "p2p-comm") ].
Proof. eexists. split; [vm_compute; reflexivity | reflexivity]. Qed.

(** The verdict of [scenario]: 10 points against 7 + 9. *)
Example scenario_verdict :
  exists v, calculate_overall_winner (init scenario) = Ok v /\
    Score.score (Verdict.sharedmem v) = 16 /\
    Score.score (Verdict.with_mtls v) = 10 /\
    Verdict.winner v = "p2p-comm".
Proof. eexists. split; [vm_compute; reflexivity | repeat split]. Qed.

(** C1 fails as stated: the only comparison of [unweighted_only] is for
    "bytes_per_second", which has no entry in the weight table, and the
    verdict gives its winner the score [1], not [0]. *)
Lemma unweighted_metric_scores :
  exists cs v,
    generate_comparison_table (init unweighted_only) = Ok cs /\
    Comparison.metric <$> cs = ["bytes_per_second"] /\
    Forall (fun c => weights !! Comparison.metric c = None) cs /\
    calculate_overall_winner (init unweighted_only) = Ok v /\
    Score.score (Verdict.sharedmem v) = 1 /\
    Score.score (Verdict.with_mtls v) = 0.
Proof.
  eexists. eexists. split; [vm_compute; reflexivity|].
  split; [reflexivity|]. split; [by repeat constructor|].
  split; [vm_compute; reflexivity|]. split; reflexivity.
Qed.

(** C2 fails as stated: in [second_lacks_metric] the second system does
    not report "latency_p50", and the table has an entry for it. *)
Lemma second_lacks_metric_compared :
  exists mtls cs c,
    with_mtls (init second_lacks_metric) = Some mtls /\
    metrics mtls !! "latency_p50" = None /\
    generate_comparison_table (init second_lacks_metric) = Ok cs /\
    c ∈ cs /\ Comparison.metric c = "latency_p50".
Proof.
  eexists. eexists. eexists. split; [reflexivity|].
  split; [reflexivity|]. split; [vm_compute; reflexivity|].
  split; [apply list_elem_of_here | reflexivity].
Qed.

(** The default weight at work on [bytes_entry] alone. *)
Lemma unweighted_adds_one_witness :
  weights !! Comparison.metric bytes_entry = None /\
  exists v v',
    overall_winner_of ([] ++ []) = Ok v /\
    overall_winner_of ([] ++ bytes_entry :: []) = Ok v' /\
    if String.eqb (Comparison.winner bytes_entry) "p2p-comm"
    then Score.score (Verdict.sharedmem v') = Score.score (Verdict.sharedmem v) + 1 /\
         Score.score (Verdict.with_mtls v') = Score.score (Verdict.with_mtls v)
    else Score.score (Verdict.sharedmem v') = Score.score (Verdict.sharedmem v) /\
         Score.score (Verdict.with_mtls v') = Score.score (Verdict.with_mtls v) + 1.
Proof.
  split; [reflexivity|].
  apply (unweighted_adds_one [] [] bytes_entry). reflexivity.
Defined.

(** "latency_p50" in [second_lacks_metric]. *)
Lemma comparison_only_when_witness :
  exists cs c,
    generate_comparison_table (init second_lacks_metric) = Ok cs /\
    c ∈ cs /\ Comparison.metric c = "latency_p50" /\
    exists p2p mtls v,
      sharedmem (init second_lacks_metric) = Some p2p /\
      with_mtls (init second_lacks_metric) = Some mtls /\
      metrics p2p !! "latency_p50" = Some v /\ num_eqb v (num_of_int 0) = false /\
      Comparison.sharedmem c = v /\
      Comparison.with_mtls c = get_or_0 (metrics mtls) "latency_p50" /\
      (metrics mtls !! "latency_p50" = None -> Comparison.with_mtls c = num_of_int 0).
Proof.
  eexists. eexists. split; [vm_compute; reflexivity|].
  split; [apply list_elem_of_here|]. split; [reflexivity|].
  eapply (comparison_only_when second_lacks_metric "latency_p50");
    [vm_compute; reflexivity | apply list_elem_of_here | reflexivity].
Defined.

(** "votes_per_second" in [scenario], where the first value is [0]. *)
Lemma zero_first_value_excluded_witness :
  sharedmem (init scenario) = Some scenario_p2p /\
  (exists v, metrics scenario_p2p !! "votes_per_second" = Some v /\
             num_eqb v (num_of_int 0) = true) /\
  exists cs, generate_comparison_table (init scenario) = Ok cs /\
             forall c, c ∈ cs -> Comparison.metric c <> "votes_per_second".
Proof.
  assert (Hz : exists v, metrics scenario_p2p !! "votes_per_second" = Some v /\
                         num_eqb v (num_of_int 0) = true).
  { exists 0%Q. split; reflexivity. }
  split; [reflexivity|]. split; [exact Hz|].
  apply (zero_first_value_excluded scenario scenario_p2p "votes_per_second");
    [reflexivity | right; exact Hz].
Defined.

(** [only_first] has no record of the second system. *)
Lemma missing_subject_empty_witness :
  Forall (fun r : ResultRecord Q => system r <> "MtlsComm") only_first /\
  generate_comparison_table (init only_first) = Ok [].
Proof.
  assert (Hm : Forall (fun r : ResultRecord Q => system r <> "MtlsComm") only_first).
  { repeat constructor; discriminate. }
  split; [exact Hm|].
  apply (missing_subject_empty only_first). right. exact Hm.
Defined.



(** ** Selection of the records and shape of the table *)

Section Selection.
Context {num : Type} `{!Number num}.
Implicit Types (self : BenchmarkAnalyzer num) (c : Comparison.t num).
Implicit Types (m : string) (h : bool).

(** [compare_metric] reads only the two selected records. *)
Lemma compare_metric_ext self self' m h :
  sharedmem self = sharedmem self' -> with_mtls self = with_mtls self' ->
  compare_metric self m h = compare_metric self' m h.
Proof. unfold compare_metric. intros -> ->. reflexivity. Qed.

(** Two analyzers whose thirteen calls agree have the same table. *)
Lemma table_ext self self' :
  (forall m h, (m, h) ∈ metric_calls ->
     compare_metric self m h = compare_metric self' m h) ->
  generate_comparison_table self = generate_comparison_table self'.
Proof.
  intros Hcalls. unfold generate_comparison_table.
  rewrite !Hcalls by (apply (bool_decide_unpack _); vm_compute; exact I).
  reflexivity.
Qed.

(** [next(...)] yields the first record with the label. *)
Lemma find_label_Some (loaded : list (ResultRecord num)) (label : string) r :
  find (fun r => String.eqb (system r) label) loaded = Some r ->
  exists before after,
    loaded = (before ++ r :: after)%list /\ system r = label /\
    Forall (fun r' => system r' <> label) before.
Proof.
  induction loaded as [|r' rs IH]; [discriminate|]. simpl.
  destruct (String.eqb_spec (system r') label) as [Heq|Hne].
  - intros [= <-]. exists [], rs. auto.
  - intros Hfind. destruct (IH Hfind) as (before & after & -> & Hr & Hbefore).
    exists (r' :: before), after. auto.
Qed.

(** The table when a system is missing. *)
Lemma table_missing self :
  sharedmem self = None \/ with_mtls self = None ->
  generate_comparison_table self = Ok [].
Proof.
  intros Hnone. unfold generate_comparison_table.
  rewrite !(compare_metric_missing _ _ _ Hnone). reflexivity.
Qed.

(** X1. The record used for a system is the first one of the results
    that carries its label, "P2pComm" or "MtlsComm"; all other records,
    those of other systems and later ones with the same label, play no
    role: the table and the verdict are those of the two selected records
    alone. *)
Theorem only_selected_records_matter (loaded : list (ResultRecord num)) p2p mtls :
  sharedmem (init loaded) = Some p2p ->
  with_mtls (init loaded) = Some mtls ->
  (exists before after,
     loaded = (before ++ p2p :: after)%list /\ system p2p = "P2pComm" /\
     Forall (fun r => system r <> "P2pComm") before) /\
  (exists before after,
     loaded = (before ++ mtls :: after)%list /\ system mtls = "MtlsComm" /\
     Forall (fun r => system r <> "MtlsComm") before) /\
  generate_comparison_table (init loaded) =
    generate_comparison_table (init [p2p; mtls]) /\
  calculate_overall_winner (init loaded) =
    calculate_overall_winner (init [p2p; mtls]).
Proof.
  intros Hp Hm.
  pose proof (find_label_Some _ _ _ Hp) as Hp'.
  pose proof (find_label_Some _ _ _ Hm) as Hm'.
  split; [exact Hp'|]. split; [exact Hm'|].
  destruct Hp' as (_ & _ & _ & Hlp & _), Hm' as (_ & _ & _ & Hlm & _).
  assert (Htable : generate_comparison_table (init loaded) =
                   generate_comparison_table (init [p2p; mtls])).
  { apply table_ext. intros m h _. apply compare_metric_ext.
    - rewrite Hp. simpl. by rewrite Hlp.
    - rewrite Hm. simpl. by rewrite Hlp, Hlm. }
  split; [exact Htable|].
  unfold calculate_overall_winner. by rewrite Htable.
Qed.

(** X2. Keys of the metrics mappings that are not among the thirteen
    names of the calls are never read: two inputs whose selected records
    agree on those thirteen names have the same table and the same
    verdict. *)
Theorem unknown_metrics_ignored (loaded loaded' : list (ResultRecord num))
    p2p mtls p2p' mtls' :
  sharedmem (init loaded) = Some p2p -> with_mtls (init loaded) = Some mtls ->
  sharedmem (init loaded') = Some p2p' -> with_mtls (init loaded') = Some mtls' ->
  (forall m, m ∈ enumeration ->
     metrics p2p !! m = metrics p2p' !! m /\ metrics mtls !! m = metrics mtls' !! m) ->
  generate_comparison_table (init loaded) = generate_comparison_table (init loaded') /\
  calculate_overall_winner (init loaded) = calculate_overall_winner (init loaded').
Proof.
  intros Hp Hm Hp' Hm' Hagree.
  assert (Htable : generate_comparison_table (init loaded) =
                   generate_comparison_table (init loaded')).
  { apply table_ext. intros m h Hcall. unfold compare_metric.
    rewrite Hp, Hm, Hp', Hm'. unfold get_or_0.
    destruct (Hagree m) as [-> ->]; [|reflexivity].
    unfold enumeration. apply list_elem_of_fmap. by exists (m, h). }
  split; [exact Htable|].
  unfold calculate_overall_winner. by rewrite Htable.
Qed.

(** X3. A returned table has at most thirteen entries, at most one for
    a metric; every entry is for one of the thirteen names, has a first
    value that is not zero, and carries the two values as they are in the
    selected records, [0] standing for a metric the second system does not
    report. *)
Theorem table_entries (loaded : list (ResultRecord num)) cs :
  generate_comparison_table (init loaded) = Ok cs ->
  (length cs <= 13)%nat /\
  NoDup (Comparison.metric <$> cs) /\
  forall c, c ∈ cs ->
    Comparison.metric c ∈ enumeration /\
    num_eqb (Comparison.sharedmem c) (num_of_int 0) = false /\
    exists p2p mtls,
      sharedmem (init loaded) = Some p2p /\ with_mtls (init loaded) = Some mtls /\
      Comparison.sharedmem c = get_or_0 (metrics p2p) (Comparison.metric c) /\
      Comparison.with_mtls c = get_or_0 (metrics mtls) (Comparison.metric c).
Proof.
  intros Hcs.
  destruct (table_metrics (init loaded)) as (cs' & Hcs' & Hmetrics).
  rewrite Hcs in Hcs'. injection Hcs' as <-.
  assert (Hnd : NoDup enumeration).
  { apply (bool_decide_unpack _). vm_compute. exact I. }
  split; [|split].
  - rewrite <- (length_fmap Comparison.metric), Hmetrics.
    etrans; [apply length_filter|]. reflexivity.
  - rewrite Hmetrics. by apply NoDup_filter.
  - intros c Hc.
    destruct (table_elem_metric _ _ _ Hcs Hc) as (h & Hpol & Hcm).
    destruct (compare_metric_Some _ _ _ _ Hcm)
      as (p2p & mtls & q & Hp & Hm & Hnz & _ & _ & Hv1 & Hv2 & _).
    split; [|split].
    + apply polarity_calls in Hpol. unfold enumeration.
      apply list_elem_of_fmap. by exists (Comparison.metric c, h).
    + by rewrite Hv1.
    + exists p2p, mtls. auto.
Qed.

(** X4. The winner of an entry of the table is "mtls-comm" exactly when
    the second value is strictly better than the first in the direction of
    the metric: greater for a higher-is-better metric, less for a
    lower-is-better one.  In every other case, ties included, it is
    "p2p-comm". *)
Theorem winner_iff_strictly_better (loaded : list (ResultRecord num)) :
  exists cs, generate_comparison_table (init loaded) = Ok cs /\
    forall c, c ∈ cs ->
      exists h, polarity !! Comparison.metric c = Some h /\
        let better :=
          if h then num_ltb (Comparison.sharedmem c) (Comparison.with_mtls c)
          else num_ltb (Comparison.with_mtls c) (Comparison.sharedmem c) in
        (Comparison.winner c = "mtls-comm" <-> better = true) /\
        (Comparison.winner c = "p2p-comm" <-> better = false).
Proof.
  destruct (generate_comparison_table_ok (init loaded)) as [cs Hcs].
  exists cs. split; [exact Hcs|]. intros c Hc.
  destruct (table_elem_metric _ _ _ Hcs Hc) as (h & Hpol & Hcm).
  destruct (compare_metric_Some _ _ _ _ Hcm)
    as (p2p & mtls & q & _ & _ & _ & _ & _ & -> & -> & _ & ->).
  exists h. split; [exact Hpol|].
  destruct h; simpl; destruct (num_ltb _ _); split; split; done.
Qed.

End Selection.

(** ** The scores of the verdict *)

Section Scores.
Context {num : Type} `{!Number num}.
Implicit Types (self : BenchmarkAnalyzer num) (c : Comparison.t num).
Implicit Types (cs : list (Comparison.t num)).

(** Every weight, the default included, is at least [1]. *)
Lemma weight_ge_1 (m : string) : 1 <= default 1 (weights !! m).
Proof.
  assert (Hall : map_Forall (fun _ w => 1 <= w) weights).
  { apply (bool_decide_unpack _). vm_compute. exact I. }
  destruct (weights !! m) as [w|] eqn:Hw; simpl; [|lia].
  exact (Hall m w Hw).
Qed.

Lemma score_step_00 c :
  let w := default 1 (weights !! Comparison.metric c) in
  score_step (0, 0) c =
    if String.eqb (Comparison.winner c) "p2p-comm" then (w, 0) else (0, w).
Proof. unfold score_step. simpl. by destruct (String.eqb _ _). Qed.

(** The two scores add up to the sum of the weights. *)
Lemma score_loop_sum cs :
  (score_loop cs).1 + (score_loop cs).2 =
    foldr (fun c acc => default 1 (weights !! Comparison.metric c) + acc) 0 cs.
Proof.
  induction cs as [|c cs IH]; [reflexivity|].
  rewrite score_loop_cons, score_step_00. simpl. rewrite <- IH.
  destruct (String.eqb _ _); simpl; lia.
Qed.

Lemma score_loop_nonneg cs : 0 <= (score_loop cs).1 /\ 0 <= (score_loop cs).2.
Proof.
  induction cs as [|c cs [IH1 IH2]]; [by compute|].
  rewrite score_loop_cons, score_step_00.
  pose proof (weight_ge_1 (Comparison.metric c)).
  destruct (String.eqb _ _); simpl; lia.
Qed.

Lemma weights_sum_length cs :
  Z.of_nat (length cs) <=
    foldr (fun c acc => default 1 (weights !! Comparison.metric c) + acc) 0 cs.
Proof.
  induction cs as [|c cs IH]; simpl; [lia|].
  pose proof (weight_ge_1 (Comparison.metric c)). lia.
Qed.

Lemma score_loop_Permutation cs cs' : cs ≡ₚ cs' -> score_loop cs = score_loop cs'.
Proof.
  induction 1 as [|c l l' _ IH|c c' l|l l' l'' _ IH1 _ IH2].
  - reflexivity.
  - by rewrite !score_loop_cons, IH.
  - rewrite !score_loop_cons. simpl. f_equal; lia.
  - congruence.
Qed.

(** X5. For every comparison list the verdict is returned; its two scores
    are not negative and add up to the sum of the weights of all the
    comparisons, the default weight [1] for a metric without entry in the
    weight table.  As every weight is at least [1], the total is at least
    the number of comparisons, and it is [0] only for the empty list. *)
Theorem scores_add_up cs :
  exists v, overall_winner_of cs = Ok v /\
    0 <= Score.score (Verdict.sharedmem v) /\
    0 <= Score.score (Verdict.with_mtls v) /\
    Score.score (Verdict.sharedmem v) + Score.score (Verdict.with_mtls v) =
      foldr (fun c acc => default 1 (weights !! Comparison.metric c) + acc) 0 cs /\
    Z.of_nat (length cs) <=
      Score.score (Verdict.sharedmem v) + Score.score (Verdict.with_mtls v) /\
    (Score.score (Verdict.sharedmem v) + Score.score (Verdict.with_mtls v) = 0 <->
     cs = []).
Proof.
  destruct (overall_winner_of_ok cs) as (v & Hv & Hs1 & Hs2 & _).
  exists v. split; [exact Hv|]. rewrite Hs1, Hs2.
  pose proof (score_loop_nonneg cs) as [H1 H2].
  pose proof (score_loop_sum cs) as Hsum.
  pose proof (weights_sum_length cs) as Hlen.
  repeat split; try assumption; try lia.
  - intros Hz. rewrite <- Hsum, Hz in Hlen.
    destruct cs; [reflexivity|]. cbn [length] in Hlen. lia.
  - intros ->. reflexivity.
Qed.

(** X6. The verdict does not depend on the order of the comparisons: two
    lists with the same comparisons in another order give the same result,
    scores, percentages and winner. *)
Theorem verdict_order_independent cs cs' :
  cs ≡ₚ cs' -> overall_winner_of cs = overall_winner_of cs'.
Proof.
  intros Hperm. unfold overall_winner_of.
  by rewrite (score_loop_Permutation _ _ Hperm).
Qed.

Lemma weights_sum_filter (P : string -> Prop) `{!forall m, Decision (P m)}
    (names : list string) :
  foldr (fun m acc => default 1 (weights !! m) + acc) 0 (filter P names) <=
  foldr (fun m acc => default 1 (weights !! m) + acc) 0 names.
Proof.
  induction names as [|m names IH]; [reflexivity|].
  pose proof (weight_ge_1 m).
  destruct (decide (P m)).
  - rewrite filter_cons_True by done. simpl. lia.
  - rewrite filter_cons_False by done. simpl. lia.
Qed.

(** X7. Once the comparison table is returned, so is the verdict of
    [calculate_overall_winner], and its two scores add up to at most [69],
    the sum of the nine weights of the table and [1] for each of the four
    other metrics; the total is at least the number of entries of the
    table. *)
Theorem total_score_bound (loaded : list (ResultRecord num)) cs :
  generate_comparison_table (init loaded) = Ok cs ->
  exists v,
    calculate_overall_winner (init loaded) = Ok v /\
    Z.of_nat (length cs) <=
      Score.score (Verdict.sharedmem v) + Score.score (Verdict.with_mtls v) /\
    Score.score (Verdict.sharedmem v) + Score.score (Verdict.with_mtls v) <= 69.
Proof.
  intros Hcs.
  destruct (table_metrics (init loaded)) as (cs' & Hcs' & Hmetrics).
  rewrite Hcs in Hcs'. injection Hcs' as <-.
  destruct (overall_winner_of_ok cs) as (v & Hv & H1 & H2 & _).
  exists v. split.
  { unfold calculate_overall_winner. by rewrite Hcs, bind_Ok. }
  rewrite H1, H2, score_loop_sum. split; [apply weights_sum_length|].
  rewrite <- (foldr_fmap (fun m acc => default 1 (weights !! m) + acc) 0 cs
                Comparison.metric).
  rewrite Hmetrics. etrans; [apply weights_sum_filter|]. by vm_compute.
Qed.

(** X8. When no record of the results carries the label of the first
    system, or none carries the label of the second, the verdict is still
    returned: both scores are [0], both percentages are the integer [0]
    (no division takes place) and the winner is "p2p-comm". *)
Theorem missing_subject_verdict (loaded : list (ResultRecord num)) :
  Forall (fun r => system r <> "P2pComm") loaded \/
  Forall (fun r => system r <> "MtlsComm") loaded ->
  calculate_overall_winner (init loaded) =
    Ok {| Verdict.sharedmem := {| Score.score := 0;
                                  Score.percentage := num_of_int 0 |};
          Verdict.with_mtls := {| Score.score := 0;
                                  Score.percentage := num_of_int 0 |};
          Verdict.winner := "p2p-comm" |}.
Proof.
  intros Hmiss. unfold calculate_overall_winner.
  rewrite table_missing; [reflexivity|].
  destruct Hmiss as [Hm | Hm]; [left | right]; simpl; apply find_label_None, Hm.
Qed.

Lemma score_loop_all_mtls cs :
  Forall (fun c => Comparison.winner c <> "p2p-comm") cs -> (score_loop cs).1 = 0.
Proof.
  induction 1 as [|c cs Hc _ IH]; [reflexivity|].
  rewrite score_loop_cons, score_step_00, IH. simpl.
  apply String.eqb_neq in Hc. by rewrite Hc.
Qed.

Lemma score_loop_all_p2p cs :
  Forall (fun c => Comparison.winner c = "p2p-comm") cs -> (score_loop cs).2 = 0.
Proof.
  induction 1 as [|c cs Hc _ IH]; [reflexivity|].
  rewrite score_loop_cons, score_step_00, IH, Hc. reflexivity.
Qed.

(** X9. A clean sweep decides the verdict: when the list is not empty
    and every comparison is won by "mtls-comm", the first system scores
    [0] and the winner is "mtls-comm"; when every comparison is won by
    "p2p-comm", the second system scores [0] and the winner is
    "p2p-comm". *)
Theorem clean_sweep cs :
  cs <> [] ->
  (Forall (fun c => Comparison.winner c = "mtls-comm") cs ->
   exists v, overall_winner_of cs = Ok v /\
     Score.score (Verdict.sharedmem v) = 0 /\
     0 < Score.score (Verdict.with_mtls v) /\
     Verdict.winner v = "mtls-comm") /\
  (Forall (fun c => Comparison.winner c = "p2p-comm") cs ->
   exists v, overall_winner_of cs = Ok v /\
     0 < Score.score (Verdict.sharedmem v) /\
     Score.score (Verdict.with_mtls v) = 0 /\
     Verdict.winner v = "p2p-comm").
Proof.
  intros Hne.
  destruct (overall_winner_of_ok cs) as (v & Hv & H1 & H2 & Hw).
  pose proof (score_loop_sum cs) as Hsum.
  pose proof (weights_sum_length cs) as Hlen.
  assert (0 < Z.of_nat (length cs)) by (destruct cs; [done | simpl; lia]).
  split; intros Hall; exists v; (split; [exact Hv|]); rewrite H1, H2, Hw.
  - assert (Hz : (score_loop cs).1 = 0).
    { apply score_loop_all_mtls. eapply Forall_impl; [exact Hall|].
      simpl. intros c ->. discriminate. }
    rewrite Hz in *. split; [reflexivity|]. split; [lia|].
    destruct (Z.ltb_spec 0 (score_loop cs).2); [reflexivity | lia].
  - assert (Hz : (score_loop cs).2 = 0) by by apply score_loop_all_p2p.
    rewrite Hz in *. split; [lia|]. split; [reflexivity|].
    destruct (Z.ltb_spec (score_loop cs).1 0); [lia | reflexivity].
Qed.

End Scores.

(** ** The reports *)

Lemma Ok_inj {A} (a b : A) : Ok a = Ok b -> a = b.
Proof. by intros [= ->]. Qed.

Lemma str_app_cons (a : ascii) (s t : string) :
  String a s +:+ t = String a (s +:+ t).
Proof. reflexivity. Qed.

Lemma str_app_assoc (s1 s2 s3 : string) : (s1 +:+ s2) +:+ s3 = s1 +:+ (s2 +:+ s3).
Proof.
  induction s1 as [|a s1 IH]; [reflexivity|].
  rewrite !str_app_cons. f_equal. exact IH.
Qed.

Lemma has_char_app (a : ascii) (s1 s2 : string) :
  has_char a (s1 +:+ s2) = has_char a s1 || has_char a s2.
Proof.
  induction s1 as [|b s1 IH]; [reflexivity|].
  rewrite str_app_cons. simpl. by rewrite IH, orb_assoc.
Qed.

Lemma plain_has_char (s : string) :
  plain s = true <-> has_char "," s = false /\ has_char "010" s = false.
Proof.
  unfold plain. destruct (has_char "," s), (has_char "010" s); simpl; intuition.
Qed.

(** A text without the separator is one field. *)
Lemma split_on_field (a : ascii) (s : string) :
  has_char a s = false -> split_on a s = [s].
Proof.
  induction s as [|b s IH]; [reflexivity|]. simpl.
  destruct (Ascii.eqb b a); [discriminate|]. simpl. intros Hs. by rewrite IH.
Qed.

(** The first field ends at the first separator. *)
Lemma split_on_app (a : ascii) (s t : string) :
  has_char a s = false -> split_on a (s +:+ String a t) = s :: split_on a t.
Proof.
  induction s as [|b s IH].
  - intros _. change ("" +:+ String a t) with (String a t). simpl.
    by rewrite Ascii.eqb_refl.
  - rewrite str_app_cons. simpl.
    destruct (Ascii.eqb b a); [discriminate|]. simpl. intros Hs. by rewrite IH.
Qed.

Lemma split_on_app_str (a : ascii) (s t : string) :
  has_char a s = false ->
  split_on a (s +:+ (String a "" +:+ t)) = s :: split_on a t.
Proof. apply split_on_app. Qed.




Section ReportTheory.
Context {num : Type} `{!Number num} `{!Format num}.
Implicit Types (self : BenchmarkAnalyzer num) (c : Comparison.t num).
Implicit Types (cs : list (Comparison.t num)).







End ReportTheory.

Section ExportTheory.
Context {num : Type} `{!Number num} `{!Format num}.
Implicit Types (self : BenchmarkAnalyzer num) (c : Comparison.t num).
Implicit Types (cs : list (Comparison.t num)).

Lemma str_app_nil_r (s : string) : s +:+ "" = s.
Proof.
  induction s as [|a s IH]; [reflexivity|]. rewrite str_app_cons. by rewrite IH.
Qed.

(** The text of the file: the header line, then the lines of the
    comparisons. *)
Lemma csv_text cs (start : string) :
  foldl (fun f comp => f +:+ (csv_record comp +:+ nl)) start cs =
  start +:+ foldr (fun comp rest => csv_record comp +:+ (nl +:+ rest)) "" cs.
Proof.
  revert start. induction cs as [|c cs IH]; intros start; simpl.
  - by rewrite str_app_nil_r.
  - by rewrite IH, !str_app_assoc.
Qed.

Lemma csv_text_lines cs :
  Forall (fun c => has_char "010" (csv_record c) = false) cs ->
  split_on "010" (foldr (fun comp rest => csv_record comp +:+ (nl +:+ rest)) "" cs) =
    ((csv_record <$> cs) ++ [""])%list.
Proof.
  induction 1 as [|c cs Hc _ IH]; [reflexivity|]. simpl. unfold nl at 1.
  by rewrite (split_on_app_str _ _ _ Hc), IH.
Qed.

(** The texts of an entry of the table have no comma and no line feed. *)
Lemma table_entry_plain self cs c :
  generate_comparison_table self = Ok cs -> c ∈ cs ->
  plain (Comparison.metric c) = true /\ plain (Comparison.winner c) = true.
Proof.
  intros Hcs Hc.
  destruct (table_elem_metric _ _ _ Hcs Hc) as (h & Hpol & Hcm).
  destruct (compare_metric_Some _ _ _ _ Hcm)
    as (p2p & mtls & q & _ & _ & _ & _ & _ & _ & _ & _ & Hw).
  split.
  - apply polarity_calls in Hpol.
    assert (Hall : Forall (fun call => plain call.1 = true) metric_calls).
    { apply (bool_decide_unpack _). vm_compute. exact I. }
    rewrite Forall_forall in Hall. exact (Hall _ Hpol).
  - rewrite Hw. destruct h; destruct (num_ltb _ _); reflexivity.
Qed.

Lemma csv_record_fields c :
  plain (Comparison.metric c) = true -> plain (Comparison.winner c) = true ->
  split_on "," (csv_record c) =
    [ Comparison.metric c;
      format_f 2 (Comparison.sharedmem c);
      format_f 2 (Comparison.with_mtls c);
      format_f 2 (Comparison.diff_percent c);
      Comparison.winner c ] /\
  has_char "010" (csv_record c) = false.
Proof.
  intros Hm Hw. apply plain_has_char in Hm as [Hm1 Hm2].
  apply plain_has_char in Hw as [Hw1 Hw2].
  assert (Hf1 : forall x, has_char "," (format_f 2 x) = false).
  { intros x. by apply plain_has_char, format_f_plain. }
  assert (Hf2 : forall x, has_char "010" (format_f 2 x) = false).
  { intros x. by apply plain_has_char, format_f_plain. }
  unfold csv_record. split.
  - rewrite (split_on_app_str _ _ _ Hm1), !(split_on_app_str _ _ _ (Hf1 _)).
    by rewrite split_on_field.
  - rewrite !has_char_app, Hm2, Hw2, !Hf2. reflexivity.
Qed.

(** X14. When [export_to_csv] completes, the file it has written reads
    back as the table: its lines are the header line with the five column
    names, then one line for each entry of the comparison table, in the
    order of the table, then nothing after the last line feed; and each of
    those lines splits at its commas into exactly five fields, the metric,
    the two values and the percent difference with two decimals, and the
    winner. *)
Theorem csv_reads_back (loaded : list (ResultRecord num)) (output_file : string)
    cs (text : string) (printed : list string) :
  generate_comparison_table (init loaded) = Ok cs ->
  export_to_csv (init loaded) output_file = Ok (text, printed) ->
  exists rows,
    split_on "010" text = (csv_header :: rows ++ [""])%list /\
    split_on "," csv_header =
      ["Metric"; "p2p-comm"; "mtls-comm"; "Difference %"; "Winner"] /\
    Forall2 (fun row c =>
               split_on "," row =
                 [ Comparison.metric c;
                   format_f 2 (Comparison.sharedmem c);
                   format_f 2 (Comparison.with_mtls c);
                   format_f 2 (Comparison.diff_percent c);
                   Comparison.winner c ]) rows cs.
Proof.
  intros Hcs Hexport.
  assert (Hall : Forall (fun c =>
            split_on "," (csv_record c) =
              [ Comparison.metric c;
                format_f 2 (Comparison.sharedmem c);
                format_f 2 (Comparison.with_mtls c);
                format_f 2 (Comparison.diff_percent c);
                Comparison.winner c ] /\
            has_char "010" (csv_record c) = false) cs).
  { apply Forall_forall. intros c Hc.
    destruct (table_entry_plain _ _ _ Hcs Hc). by apply csv_record_fields. }
  unfold export_to_csv in Hexport. rewrite Hcs, bind_Ok in Hexport.
  apply Ok_inj in Hexport. apply pair_equal_spec in Hexport as [<- _].
  exists (csv_record <$> cs). split; [|split].
  - rewrite csv_text, str_app_assoc. unfold nl at 1.
    rewrite split_on_app_str by reflexivity. f_equal.
    apply csv_text_lines. eapply Forall_impl; [exact Hall|]. by intros c [_ ?].
  - reflexivity.
  - apply Forall2_fmap_l, Forall_Forall2_diag.
    eapply Forall_impl; [exact Hall|]. by intros c [? _].
Qed.

(** Each of the three blocks of [plot_comparison_charts]. *)
Lemma chart_block cs (names : list string) (t x y path : string) :
  charted_as cs names path
    match chart_data cs names with
    | [] => None
    | _ :: _ => _plot_bar_comparison (chart_data cs names) t x y path
    end.
Proof.
  unfold charted_as, chart_data.
  destruct (filter _ cs) as [|c group] eqn:Hgroup; [reflexivity|].
  simpl. rewrite <- !list_fmap_compose.
  repeat split; try reflexivity. discriminate.
Qed.

(** The figures of [plot_comparison_charts] are the charts of the three
    groups. *)
Lemma plot_comparison_charts_blocks self (output_dir : string) cs :
  generate_comparison_table self = Ok cs ->
  exists o1 o2 o3,
    plot_comparison_charts self output_dir =
      Ok (omap id [o1; o2; o3],
          [nl +:+ "📊 Charts saved to: " +:+ output_dir +:+ "/"]) /\
    Forall2 (fun group o => charted_as cs group.1 (output_dir +:+ group.2) o)
            chart_groups [o1; o2; o3].
Proof.
  intros Hcs. unfold plot_comparison_charts. rewrite Hcs, bind_Ok. cbv zeta.
  do 3 eexists. split; [reflexivity|].
  unfold chart_groups. repeat constructor; apply chart_block.
Qed.

(** X15. When [plot_comparison_charts] completes, every figure it has
    saved is the chart of one of its three groups, throughput, latency and
    resource usage, saved under the file name of the group in the output
    directory; the group has at least one entry in the comparison table,
    and the figure has, in the order of the table, one tick label, one bar
    for each system and one value label for each bar, for every entry of
    the group.  At most three figures are saved, and the message is
    printed whether or not a figure was. *)
Theorem chart_is_group_of_table (loaded : list (ResultRecord num))
    (output_dir : string) cs figures printed :
  generate_comparison_table (init loaded) = Ok cs ->
  plot_comparison_charts (init loaded) output_dir = Ok (figures, printed) ->
  printed = [nl +:+ "📊 Charts saved to: " +:+ output_dir +:+ "/"] /\
  (length figures <= 3)%nat /\
  forall fig, fig ∈ figures ->
    exists names file,
      (names, file) ∈ chart_groups /\
      charted_as cs names (output_dir +:+ file) (Some fig).
Proof.
  intros Hcs Hplot.
  destruct (plot_comparison_charts_blocks _ output_dir _ Hcs)
    as (o1 & o2 & o3 & Hplot' & Hblocks).
  rewrite Hplot' in Hplot. apply Ok_inj, pair_equal_spec in Hplot as [<- <-].
  split; [reflexivity|]. split.
  { destruct o1, o2, o3; simpl; lia. }
  intros fig Hfig. apply list_elem_of_omap in Hfig as (o & Ho & Hsome).
  simpl in Hsome. subst o.
  apply list_elem_of_lookup in Ho as [i Hi].
  destruct (Forall2_lookup_r _ _ _ _ _ Hblocks Hi) as ([names file] & Hg & Hc).
  exists names, file. split; [|exact Hc].
  apply list_elem_of_lookup. eauto.
Qed.

(** X16. Conversely, when [plot_comparison_charts] completes, a group
    with at least one entry in the comparison table has its figure: it is
    among the saved ones, under the file name of the group, with all the
    entries of the group. *)
Theorem group_of_table_is_charted (loaded : list (ResultRecord num))
    (output_dir : string) cs figures printed :
  generate_comparison_table (init loaded) = Ok cs ->
  plot_comparison_charts (init loaded) output_dir = Ok (figures, printed) ->
  forall names file c,
    (names, file) ∈ chart_groups -> c ∈ cs -> Comparison.metric c ∈ names ->
    exists fig, fig ∈ figures /\
      charted_as cs names (output_dir +:+ file) (Some fig) /\
      exists i, Figure.labels fig !! i = Some (Comparison.metric c) /\
                Figure.sharedmem_values fig !! i = Some (Comparison.sharedmem c) /\
                Figure.with_mtls_values fig !! i = Some (Comparison.with_mtls c).
Proof.
  intros Hcs Hplot.
  destruct (plot_comparison_charts_blocks _ output_dir _ Hcs)
    as (o1 & o2 & o3 & Hplot' & Hblocks).
  rewrite Hplot' in Hplot. apply Ok_inj, pair_equal_spec in Hplot as [<- _].
  intros names file c Hgroup Hc Hm.
  apply list_elem_of_lookup in Hgroup as [k Hk].
  destruct (Forall2_lookup_l _ _ _ _ _ Hblocks Hk) as (o & Ho & Hchart).
  simpl in Hchart.
  assert (Hin : c ∈ filter (fun c => Comparison.metric c ∈ names) cs).
  { by apply list_elem_of_filter. }
  destruct o as [fig|].
  2:{ unfold charted_as in Hchart. rewrite Hchart in Hin. by apply elem_of_nil in Hin. }
  exists fig. split.
  { apply list_elem_of_omap. exists (Some fig). split; [|reflexivity].
    apply list_elem_of_lookup. eauto. }
  split; [exact Hchart|].
  destruct Hchart as (_ & _ & Hl & Hs & Hw & _).
  apply list_elem_of_lookup in Hin as [i Hi]. exists i.
  rewrite Hl, Hs, Hw, !list_lookup_fmap, Hi. auto.
Qed.

(** X17. Only seven of the thirteen metrics are ever charted: every tick
    label of a saved figure is one of the names of the three groups, so
    that "bytes_per_second", "latency_mean", the three security metrics and
    "delivery_success_rate", which the table, the printed report and the
    CSV file do show, are in no chart. *)
Theorem uncharted_metrics (loaded : list (ResultRecord num)) (output_dir : string) :
  exists figures printed,
    plot_comparison_charts (init loaded) output_dir = Ok (figures, printed) /\
    forall fig name, fig ∈ figures -> name ∈ Figure.labels fig ->
      name ∈ mjoin chart_groups.*1 /\
      name ∉ [ "bytes_per_second"; "latency_mean"; "tls_handshake_time_us";
               "cert_validation_time_us"; "encryption_overhead_percent";
               "delivery_success_rate" ].
Proof.
  destruct (generate_comparison_table_ok (init loaded)) as [cs Hcs].
  destruct (plot_comparison_charts_blocks _ output_dir _ Hcs)
    as (o1 & o2 & o3 & Hplot & Hblocks).
  eexists. eexists. split; [exact Hplot|].
  intros fig name Hfig Hname.
  assert (Hcharted : name ∈ mjoin chart_groups.*1).
  { apply list_elem_of_omap in Hfig as (o & Ho & Hsome). simpl in Hsome. subst o.
    apply list_elem_of_lookup in Ho as [i Hi].
    destruct (Forall2_lookup_r _ _ _ _ _ Hblocks Hi)
      as ([names file] & Hg & (_ & _ & Hl & _)).
    simpl in Hl. rewrite Hl in Hname.
    apply list_elem_of_fmap in Hname as (c & -> & Hc).
    apply list_elem_of_filter in Hc as [Hc _].
    apply list_elem_of_join. exists names. split; [exact Hc|].
    apply list_elem_of_fmap. exists (names, file). split; [reflexivity|].
    apply list_elem_of_lookup. eauto. }
  split; [exact Hcharted|]. intros Hun.
  assert (Hdisj : Forall (fun n => n ∉ [ "bytes_per_second"; "latency_mean";
                    "tls_handshake_time_us"; "cert_validation_time_us";
                    "encryption_overhead_percent"; "delivery_success_rate" ])
                  (mjoin chart_groups.*1)).
  { apply (bool_decide_unpack _). vm_compute. exact I. }
  rewrite Forall_forall in Hdisj. exact (Hdisj _ Hcharted Hun).
Qed.


End ExportTheory.

(** ** Concrete runs of the reports *)

(** The file written for [scenario]. *)
Example scenario_csv :
  export_to_csv (init scenario) "benchmark_comparison.csv" =
    Ok ("Metric,p2p-comm,mtls-comm,Difference %,Winner" +:+ nl +:+
        "latency_p50,100.00,80.00,-20.00,mtls-comm" +:+ nl +:+
        "cpu_usage_percent,40.00,55.00,37.50,p2p-comm" +:+ nl +:+
        "delivery_success_rate,99.00,99.00,0.00,p2p-comm" +:+ nl,
        [nl +:+ "📄 CSV exported to: benchmark_comparison.csv"]).
Proof. vm_compute. reflexivity. Qed.

(** The rows printed for [scenario], and the two score lines. *)
Example scenario_printed :
  exists table summary,
    print_comparison_table (init scenario) = Ok table /\
    print_overall_summary (init scenario) = Ok summary /\
    table !! 10%nat =
      Some "latency_p50                         |          100.00 |           80.00 | ↓     20.0% | mtls-comm            ✓" /\
    table !! 13%nat =
      Some "cpu_usage_percent                   |           40.00 |           55.00 | ↑     37.5% | p2p-comm             " /\
    summary !! 4%nat = Some "p2p-comm (libp2p):        16 points (61.5%)" /\
    summary !! 5%nat = Some "mtls-comm (pure mTLS):     10 points (38.5%)" /\
    summary !! 7%nat = Some "🎉 Winner: P2P-COMM".
Proof.
  eexists. eexists. split; [vm_compute; reflexivity|].
  split; [vm_compute; reflexivity|]. repeat split.
Qed.

(** The figures saved for [scenario]: none for the throughput group,
    whose only reported metric has a zero first value. *)
Example scenario_charts :
  exists figures printed,
    plot_comparison_charts (init scenario) "./charts" = Ok (figures, printed) /\
    Figure.output_path <$> figures =
      ["./charts/latency_comparison.png"; "./charts/resource_comparison.png"] /\
    Figure.labels <$> figures = [["latency_p50"]; ["cpu_usage_percent"]] /\
    Figure.value_labels <$> figures = [["100.0"; "80.0"]; ["40.0"; "55.0"]].
Proof. eexists. eexists. split; [vm_compute; reflexivity|]. repeat split. Qed.

(** [crowded]: the first record of each label among four. *)
Lemma only_selected_records_matter_witness :
  sharedmem (init crowded) = Some scenario_p2p /\
  with_mtls (init crowded) = Some scenario_mtls /\
  generate_comparison_table (init crowded) =
    generate_comparison_table (init [scenario_p2p; scenario_mtls]) /\
  calculate_overall_winner (init crowded) =
    calculate_overall_winner (init [scenario_p2p; scenario_mtls]).
Proof.
  split; [reflexivity|]. split; [reflexivity|].
  destruct (only_selected_records_matter crowded scenario_p2p scenario_mtls
              eq_refl eq_refl) as (_ & _ & Htable & Hverdict).
  split; [exact Htable | exact Hverdict].
Defined.

(** [scenario] and [scenario_extra_keys] differ only in "queue_depth". *)
Lemma unknown_metrics_ignored_witness :
  metrics scenario_p2p !! "queue_depth" = None /\
  (exists p2p', sharedmem (init scenario_extra_keys) = Some p2p' /\
                metrics p2p' !! "queue_depth" = Some 3%Q) /\
  generate_comparison_table (init scenario) =
    generate_comparison_table (init scenario_extra_keys) /\
  calculate_overall_winner (init scenario) =
    calculate_overall_winner (init scenario_extra_keys).
Proof.
  split; [reflexivity|]. split; [eexists; split; reflexivity|].
  eapply (unknown_metrics_ignored scenario scenario_extra_keys);
    [reflexivity | reflexivity | reflexivity | reflexivity |].
  apply Forall_forall. unfold enumeration, metric_calls.
  repeat (apply Forall_cons; split; [split; vm_compute; reflexivity|]).
  apply Forall_nil. exact I.
Defined.

(** Two comparisons in either order. *)
Lemma verdict_order_independent_witness :
  [bytes_entry; latency_entry] ≡ₚ [latency_entry; bytes_entry] /\
  overall_winner_of [bytes_entry; latency_entry] =
    overall_winner_of [latency_entry; bytes_entry].
Proof.
  assert (Hperm : [bytes_entry; latency_entry] ≡ₚ [latency_entry; bytes_entry])
    by apply perm_swap.
  split; [exact Hperm|].
  exact (verdict_order_independent _ _ Hperm).
Defined.

(** [only_first] has no record of the second system. *)
Lemma missing_subject_verdict_witness :
  Forall (fun r : ResultRecord Q => system r <> "MtlsComm") only_first /\
  calculate_overall_winner (init only_first) =
    Ok {| Verdict.sharedmem := {| Score.score := 0; Score.percentage := 0%Q |};
          Verdict.with_mtls := {| Score.score := 0; Score.percentage := 0%Q |};
          Verdict.winner := "p2p-comm" |}.
Proof.
  assert (Hm : Forall (fun r : ResultRecord Q => system r <> "MtlsComm") only_first).
  { repeat constructor; discriminate. }
  split; [exact Hm|].
  exact (missing_subject_verdict only_first (or_intror Hm)).
Defined.

(** A single comparison, won by the second system. *)
Lemma clean_sweep_witness :
  [latency_entry] <> [] /\
  Forall (fun c : Comparison.t Q => Comparison.winner c = "mtls-comm") [latency_entry] /\
  exists v, overall_winner_of [latency_entry] = Ok v /\
    Score.score (Verdict.sharedmem v) = 0 /\
    0 < Score.score (Verdict.with_mtls v) /\
    Verdict.winner v = "mtls-comm".
Proof.
  assert (Hne : [latency_entry] <> []) by discriminate.
  assert (Hall : Forall (fun c : Comparison.t Q => Comparison.winner c = "mtls-comm")
                        [latency_entry]) by (repeat constructor).
  split; [exact Hne|]. split; [exact Hall|].
  exact (proj1 (clean_sweep [latency_entry] Hne) Hall).
Defined.


(** The table of [scenario]. *)
Lemma table_entries_witness :
  exists cs,
    generate_comparison_table (init scenario) = Ok cs /\
    (length cs <= 13)%nat /\
    NoDup (Comparison.metric <$> cs) /\
    forall c, c ∈ cs ->
      Comparison.metric c ∈ enumeration /\
      num_eqb (Comparison.sharedmem c) (num_of_int 0) = false /\
      exists p2p mtls,
        sharedmem (init scenario) = Some p2p /\ with_mtls (init scenario) = Some mtls /\
        Comparison.sharedmem c = get_or_0 (metrics p2p) (Comparison.metric c) /\
        Comparison.with_mtls c = get_or_0 (metrics mtls) (Comparison.metric c).
Proof.
  eexists. split; [vm_compute; reflexivity|].
  apply (table_entries scenario). vm_compute. reflexivity.
Defined.

(** The verdict of [scenario]: three entries, twenty-six points. *)
Lemma total_score_bound_witness :
  exists cs,
    generate_comparison_table (init scenario) = Ok cs /\
    exists v,
      calculate_overall_winner (init scenario) = Ok v /\
      Z.of_nat (length cs) <=
        Score.score (Verdict.sharedmem v) + Score.score (Verdict.with_mtls v) /\
      Score.score (Verdict.sharedmem v) + Score.score (Verdict.with_mtls v) <= 69.
Proof.
  eexists. split; [vm_compute; reflexivity|].
  apply (total_score_bound scenario). vm_compute. reflexivity.
Defined.



(** The file written for [scenario]. *)
Lemma csv_reads_back_witness :
  exists cs text printed,
    generate_comparison_table (init scenario) = Ok cs /\
    export_to_csv (init scenario) "benchmark_comparison.csv" = Ok (text, printed) /\
    exists rows,
      split_on "010" text = (csv_header :: rows ++ [""])%list /\
      split_on "," csv_header =
        ["Metric"; "p2p-comm"; "mtls-comm"; "Difference %"; "Winner"] /\
      Forall2 (fun row c =>
                 split_on "," row =
                   [ Comparison.metric c;
                     format_f 2 (Comparison.sharedmem c);
                     format_f 2 (Comparison.with_mtls c);
                     format_f 2 (Comparison.diff_percent c);
                     Comparison.winner c ]) rows cs.
Proof.
  eexists. eexists. eexists. split; [vm_compute; reflexivity|].
  split; [vm_compute; reflexivity|].
  eapply (csv_reads_back scenario "benchmark_comparison.csv");
    vm_compute; reflexivity.
Defined.

(** The figures saved for [scenario]. *)
Lemma chart_is_group_of_table_witness :
  exists cs figures printed,
    generate_comparison_table (init scenario) = Ok cs /\
    plot_comparison_charts (init scenario) "./charts" = Ok (figures, printed) /\
    printed = [nl +:+ "📊 Charts saved to: " +:+ "./charts" +:+ "/"] /\
    (length figures <= 3)%nat /\
    forall fig, fig ∈ figures ->
      exists names file,
        (names, file) ∈ chart_groups /\
        charted_as cs names ("./charts" +:+ file) (Some fig).
Proof.
  eexists. eexists. eexists. split; [vm_compute; reflexivity|].
  split; [vm_compute; reflexivity|].
  eapply (chart_is_group_of_table scenario "./charts"); vm_compute; reflexivity.
Defined.

(** The entries of [scenario] in the figures. *)
Lemma group_of_table_is_charted_witness :
  exists cs figures printed,
    generate_comparison_table (init scenario) = Ok cs /\
    plot_comparison_charts (init scenario) "./charts" = Ok (figures, printed) /\
    forall names file c,
      (names, file) ∈ chart_groups -> c ∈ cs -> Comparison.metric c ∈ names ->
      exists fig, fig ∈ figures /\
        charted_as cs names ("./charts" +:+ file) (Some fig) /\
        exists i, Figure.labels fig !! i = Some (Comparison.metric c) /\
                  Figure.sharedmem_values fig !! i = Some (Comparison.sharedmem c) /\
                  Figure.with_mtls_values fig !! i = Some (Comparison.with_mtls c).
Proof.
  eexists. eexists. eexists. split; [vm_compute; reflexivity|].
  split; [vm_compute; reflexivity|].
  eapply (group_of_table_is_charted scenario "./charts");
    vm_compute; reflexivity.
Defined.
